(** * SlackChatBot: the message pipeline of [main.py]

    A shallow embedding of [get_gemini_response], [send_long_message] and
    [handle_message], with the properties of the chunking loop, of the
    classifier normalisation and of the outbound calls of the handler. *)

From Stdlib Require Import ZArith NArith Decimal Ascii String.
From stdpp Require Import gmap strings list fin_maps.

Local Open Scope Z_scope.

(** ** Python strings

    A Python [str] is a sequence of Unicode code points; [len], slicing,
    [rfind], [strip] and [replace] all count code points. *)

Abbreviation char := N.
Abbreviation str := (list char).

Module Utf8.
(** The literals of [main.py] are kept as they are written in the source
    and decoded from the UTF-8 bytes of the file. *)

Definition cont (b : N) : N := N.land b 63.

Fixpoint decode (bs : list N) : str :=
  match bs with
  | [] => []
  | b0 :: r0 =>
      if (b0 <? 128)%N then b0 :: decode r0
      else match r0 with
      | [] => []
      | b1 :: r1 =>
          if (b0 <? 224)%N then
            N.lor (N.shiftl (N.land b0 31) 6) (cont b1) :: decode r1
          else match r1 with
          | [] => []
          | b2 :: r2 =>
              if (b0 <? 240)%N then
                N.lor (N.shiftl (N.land b0 15) 12)
                  (N.lor (N.shiftl (cont b1) 6) (cont b2)) :: decode r2
              else match r2 with
              | [] => []
              | b3 :: r3 =>
                  N.lor (N.shiftl (N.land b0 7) 18)
                    (N.lor (N.shiftl (cont b1) 12)
                       (N.lor (N.shiftl (cont b2) 6) (cont b3))) :: decode r3
              end
          end
      end
  end.

Fixpoint bytes (s : string) : list N :=
  match s with
  | EmptyString => []
  | String a s' => N_of_ascii a :: bytes s'
  end.
End Utf8.

(** [u s] is the Python literal written [s] in the source. *)
Definition u (s : string) : str := Utf8.decode (Utf8.bytes s).

Definition nl : char := 10%N.          (* line feed *)
Definition fullstop : char := 65294%N. (* U+FF0E, fullwidth full stop *)
Definition squote : char := 39%N.      (* apostrophe *)
Definition dquote : char := 34%N.      (* quotation mark *)
Definition asterisk : char := 42%N.    (* asterisk *)

Module Py.
(** [len(s)] *)
Definition len (s : str) : Z := Z.of_nat (length s).

(** [s[a:b]] for [0 <= a] and [0 <= b], the only slices the program
    takes: both ends are clipped to [len(s)]. *)
Definition slice (s : str) (a b : Z) : str :=
  take (Z.to_nat b - Z.to_nat a) (drop (Z.to_nat a) s).

(** The highest index of [c] in [s]. *)
Fixpoint rindex (c : char) (s : str) : option nat :=
  match s with
  | [] => None
  | x :: s' =>
      match rindex c s' with
      | Some k => Some (S k)
      | None => if (x =? c)%N then Some 0%nat else None
      end
  end.

(** [s.rfind(c, start, end)] for a one-character [c] and
    [0 <= start]: the highest index of [c] in [s[start:end]], or [-1]. *)
Definition rfind (s : str) (c : char) (start end_ : Z) : Z :=
  match rindex c (slice s start end_) with
  | Some k => start + Z.of_nat k
  | None => -1
  end.

(** [c.isspace()]: the characters removed by [strip()]. *)
Definition isspace (c : char) : bool :=
  ((9 <=? c) && (c <=? 13) || (28 <=? c) && (c <=? 32)
   || (c =? 133) || (c =? 160) || (c =? 5760)
   || (8192 <=? c) && (c <=? 8202)
   || (c =? 8232) || (c =? 8233) || (c =? 8239) || (c =? 8287)
   || (c =? 12288))%N.

Fixpoint lstrip (s : str) : str :=
  match s with
  | c :: s' => if isspace c then lstrip s' else s
  | [] => []
  end.

Definition rstrip (s : str) : str := reverse (lstrip (reverse s)).

(** [s.strip()] *)
Definition strip (s : str) : str := rstrip (lstrip s).

(** [s.replace(c, empty)] for a one-character [c]. *)
Definition remove_char (c : char) (s : str) : str :=
  filter (λ x, x ≠ c) s.

Fixpoint starts_with (p s : str) : bool :=
  match p, s with
  | [], _ => true
  | a :: p', b :: s' => (a =? b)%N && starts_with p' s'
  | _ :: _, [] => false
  end.

(** [s.replace(old, empty)] scans from the left and deletes the occurrences
    of [old] that do not overlap; [skip] counts the characters of an
    occurrence that are still to be dropped. *)
Fixpoint remove_from (old : str) (skip : nat) (s : str) : str :=
  match s with
  | [] => []
  | c :: s' =>
      match skip with
      | S k => remove_from old k s'
      | O => if starts_with old s
             then remove_from old (length old - 1) s'
             else c :: remove_from old 0 s'
      end
  end.

Definition remove_sub (old s : str) : str :=
  match old with
  | [] => s
  | _ => remove_from old 0 s
  end.

Fixpoint uint_digits (d : Decimal.uint) : str :=
  match d with
  | Nil => []
  | D0 d => 48%N :: uint_digits d
  | D1 d => 49%N :: uint_digits d
  | D2 d => 50%N :: uint_digits d
  | D3 d => 51%N :: uint_digits d
  | D4 d => 52%N :: uint_digits d
  | D5 d => 53%N :: uint_digits d
  | D6 d => 54%N :: uint_digits d
  | D7 d => 55%N :: uint_digits d
  | D8 d => 56%N :: uint_digits d
  | D9 d => 57%N :: uint_digits d
  end.

(** [f"{n}"] for a natural number [n]. *)
Definition fmt_nat (n : nat) : str := uint_digits (Nat.to_uint n).

(** [nl.join(ls)] *)
Fixpoint join_lines (ls : list str) : str :=
  match ls with
  | [] => []
  | [l] => l
  | l :: ls' => l ++ nl :: join_lines ls'
  end.
End Py.

(** ** The chunking loop of [send_long_message] *)

Definition limit : Z := 3000.

(** The body of the loop up to the choice of [split_pos]. *)
Definition next_split (text : str) (current_pos : Z) : Z :=
  let split_pos := Py.rfind text fullstop current_pos (current_pos + limit) in
  let split_pos :=
    if split_pos =? -1
    then Py.rfind text nl current_pos (current_pos + limit)
    else split_pos in
  if (split_pos =? -1) || (split_pos <=? current_pos)
  then current_pos + limit
  else split_pos.

(** [while current_pos < len(text)]: one unit of [fuel] per iteration,
    [None] when the fuel does not suffice. *)
Fixpoint chunk_loop (fuel : nat) (text : str) (parts : list str)
    (current_pos : Z) : option (list str) :=
  if current_pos <? Py.len text then
    match fuel with
    | O => None
    | S fuel' =>
        let split_pos := next_split text current_pos in
        chunk_loop fuel' text
          (parts ++ [Py.slice text current_pos (split_pos + 1)])
          (split_pos + 1)
    end
  else Some parts.

(** The parts of a text that is longer than [limit]; the loop is given
    [len(text)] iterations, which [chunk_loop_terminates] shows to be enough. *)
Definition split_parts (text : str) : option (list str) :=
  chunk_loop (length text) text [] 0.

(** [f"*{i+1}/{len(parts)}*\n\n{part}"] *)
Definition part_text (i n : nat) (part : str) : str :=
  [asterisk] ++ Py.fmt_nat (i + 1) ++ u "/" ++ Py.fmt_nat n
    ++ [asterisk; nl; nl] ++ part.


(** ** Outbound calls and the request monad

    Every call that leaves the process is recorded, in order, in a trace:
    the calls to the chat platform, to the generative model and to the
    document store.  A computation threads the trace and ends by returning
    a value, by raising an exception (kept as its [str(e)]), or not at all. *)

Inductive Call :=
  | Say (text : str) (thread_ts : option str)
  | ChatUpdate (channel ts text : str)
  | ChatDelete (channel ts : str)
  | ChatPostMessage (channel : str) (thread_ts : option str) (text : str)
  | GenerateContent (prompt : str)
  | ReadText (filename : str).

Inductive Outcome (A : Type) :=
  | Ret (a : A)
  | Raise (e : str)
  | Diverge.
Arguments Ret {A} a.
Arguments Raise {A} e.
Arguments Diverge {A}.

Definition M (A : Type) : Type := list Call → list Call * Outcome A.

Definition ret {A} (a : A) : M A := λ tr, (tr, Ret a).

Definition bind {A B} (m : M A) (f : A → M B) : M B :=
  λ tr, match m tr with
        | (tr', Ret a) => f a tr'
        | (tr', Raise e) => (tr', Raise e)
        | (tr', Diverge) => (tr', Diverge)
        end.

Definition raise {A} (e : str) : M A := λ tr, (tr, Raise e).

Definition diverge {A} : M A := λ tr, (tr, Diverge).

(** [try: body except Exception as e: handler] *)
Definition try_except {A} (body : M A) (handler : str → M A) : M A :=
  λ tr, match body tr with
        | (tr', Raise e) => handler e tr'
        | r => r
        end.

#[export] Instance M_ret : MRet M := @ret.
#[export] Instance M_bind : MBind M := λ A B f m, bind m f.

(** The collaborators of one request.  [generative_model] tells whether
    the model client exists; [generate_content_async] and [read_text]
    answer with the text or with the exception they raise; [slack] gives,
    for the calls issued so far and the call being made, the identifier
    [ts] of the response or the exception raised. *)
Record Env := {
  generative_model : bool;
  generate_content_async : str → str + str;
  read_text : str → str + str;
  slack : list Call → Call → str + str
}.

(** A call is recorded when it is issued, also when it then fails. *)
Definition perform (answer : list Call → str + str) (c : Call) : M str :=
  λ tr, match answer tr with
        | inl r => (tr ++ [c], Ret r)
        | inr e => (tr ++ [c], Raise e)
        end.

Definition slack_call (env : Env) (c : Call) : M str :=
  perform (λ tr, slack env tr c) c.

(** ** [get_gemini_response] *)

Definition no_api_key_text : str :=
  u "Gemini APIキーが設定されていないため、応答できません．".

Definition gemini_error_text (e : str) : str :=
  u "申し訳ありません、AIとの通信中にエラーが発生しました．(" ++ e ++ u ")".

Definition get_gemini_response (env : Env) (prompt : str) : M str :=
  if negb (generative_model env) then ret no_api_key_text
  else
    try_except
      (response ← perform (λ _, generate_content_async env prompt)
                    (GenerateContent prompt);
       ret response)
      (λ e, ret (gemini_error_text e)).

(** ** [send_long_message] *)

(** [for i, part in enumerate(parts)], from index [i] on; [n] is
    [len(parts)]. *)
Fixpoint post_parts (env : Env) (channel : str) (thread_ts : option str)
    (n i : nat) (parts : list str) : M unit :=
  match parts with
  | [] => ret tt
  | part :: rest =>
      slack_call env (ChatPostMessage channel thread_ts (part_text i n part));;
      post_parts env channel thread_ts n (S i) rest
  end.

Definition send_long_message (env : Env) (channel : str)
    (thread_ts : option str) (text : str) : M unit :=
  if Py.len text <=? limit then
    slack_call env (ChatPostMessage channel thread_ts text);;
    ret tt
  else
    match split_parts text with
    | None => diverge
    | Some parts => post_parts env channel thread_ts (length parts) 0 parts
    end.

(** ** The catalog [DOCUMENTS_INFO] *)

Record Doc := {
  keyword : str;
  filename : str;
  description : str
}.

Definition DOCUMENTS_INFO : list Doc := [
  {| keyword := u "ゼミ"; filename := u "zemi_unei.txt";
     description := u "研究室のゼミのルール、発表者や座長の役割について説明している資料．" |};
  {| keyword := u "配属後の流れ"; filename := u "haizoku_flow.txt";
     description := u "研究室に新しく配属された学生が、最初に行うべき手続きや活動の流れを説明している資料．" |};
  {| keyword := u "論文テンプレート"; filename := u "ronbun_template.txt";
     description := u "卒業論文や修士論文を執筆する際のWordテンプレートの使い方や注意点を説明している資料．" |};
  {| keyword := u "発表の質問例"; filename := u "shitsumon_rei.txt";
     description := u "研究発表の質疑応答でよく聞かれる質問の例をまとめている資料．" |};
  {| keyword := u "Python教材"; filename := u "kyouzai_python.txt";
     description := u "プログラミング言語Pythonの基本的な学習教材やサイトについて紹介している資料．" |};
  {| keyword := u "Pytorch教材"; filename := u "kyouzai_pytorch.txt";
     description := u "深層学習フレームワークPytorchの学習教材について紹介している資料．" |};
  {| keyword := u "機械学習教材"; filename := u "kyouzai_machine_learning.txt";
     description := u "機械学習の全体的な学習教材やライブラリ(scikit-learnなど)について紹介している資料．" |};
  {| keyword := u "深層学習教材"; filename := u "kyouzai_deep_learning.txt";
     description := u "ディープラーニング（深層学習）の概念や理論に関する学習教材を紹介している資料．" |};
  {| keyword := u "統計学教材"; filename := u "kyouzai_statistics.txt";
     description := u "統計学の学習教材を紹介している資料．" |};
  {| keyword := u "線形代数教材"; filename := u "kyouzai_linear_algebra.txt";
     description := u "線形代数の学習教材を紹介している資料．" |};
  {| keyword := u "自己紹介"; filename := u "yourprofile.txt";
     description := u "AIアシスタント自身の役割や、何ができるかといった自己紹介．" |}
].

Definition doc_keywords : list str := map keyword DOCUMENTS_INFO.

(** ** [handle_message] *)

(** The texts the handler sends. *)

Definition thinking_text : str :=
  u "🤔 どの資料を読めばいいか考えています...".

Definition reading_text (selected_file : str) : str :=
  u "🤔 `" ++ selected_file ++ u "` を読んでいます...".

Definition no_document_text : str :=
  u "🤔 うーん、関連する資料は見つからなかったけど、僕の知識で答えてみるね．".

Definition error_text (e : str) : str :=
  u "申し訳ありません．エラーが発生しました: " ++ e.

(** The prompts. *)

Definition topic_descriptions : str :=
  Py.join_lines
    (map (λ doc, u "- トピック名: " ++ keyword doc ++ [nl]
                 ++ u "  説明: " ++ description doc)
       DOCUMENTS_INFO).

Definition classification_prompt (user_query : str) : str :=
  u "あなたはユーザーの質問内容を分析し、最も関連性の高い資料を判断する専門家です．" ++ [nl]
  ++ u "以下の質問に答えるのに最適なトピックを、下記のトピックリストから一つだけ選び、その「トピック名」だけを答えてください．" ++ [nl]
  ++ u "もし、どのトピックにも当てはまらない一般知識の質問の場合は、「一般知識」と答えてください．" ++ [nl; nl]
  ++ u "## 質問:" ++ [nl] ++ user_query ++ [nl; nl]
  ++ u "## トピックリスト:" ++ [nl] ++ topic_descriptions ++ [nl; nl]
  ++ u "## 回答（トピック名一つだけ）：".

Definition slack_format_rules : str :=
  u "# Slack用の書式ルール" ++ [nl]
  ++ u "* 強調したい単語は、`*単語*` のようにアスタリスクで囲んでください．" ++ [nl]
  ++ u "* 箇条書きを使う場合は、行頭に `• ` (中黒と半角スペース) を使用してください．" ++ [nl]
  ++ u "* `**単語**` のような二重アスタリスクや、行頭の `* ` は使用しないでください．".

Definition final_query (selected_file context_text user_query : str) : str :=
  u "あなたは研究室の優秀で親しみやすいアシスタント、おくだくんです．" ++ [nl]
  ++ u "以下の参考情報に厳密に基づいて、丁寧で分かりやすい言葉で回答を生成してください．" ++ [nl; nl]
  ++ u "# 指示" ++ [nl]
  ++ u "* 箇条書きを使う場合でも、前後に説明の文章を加えて会話のような自然な流れにしてください．" ++ [nl]
  ++ u "* 相手は後輩や新入生であることを意識し、親しみやすい口調を心がけてください．" ++ [nl]
  ++ u "* 参考情報に書かれていないことは、絶対に答えないでください．" ++ [nl; nl]
  ++ slack_format_rules ++ [nl; nl]
  ++ u "# 参考情報 (出典: " ++ selected_file ++ u ")" ++ [nl] ++ context_text ++ [nl; nl]
  ++ u "# 質問" ++ [nl] ++ user_query.

Definition fallback_query (user_query : str) : str :=
  u "あなたは研究室の優秀で親しみやすいアシスタント、おくだくんです．" ++ [nl]
  ++ u "「" ++ user_query ++ u "」という質問を受けましたが、手元に関連する資料がありませんでした．" ++ [nl]
  ++ u "あなたの持っている一般的な知識を最大限に活用し、後輩に教えるような親しみやすく丁寧な口調で応答してください．" ++ [nl; nl]
  ++ slack_format_rules.

(** [topic.strip().replace(...)...]: the label read from the answer of
    the classifier. *)
Definition normalize_topic (topic : str) : str :=
  Py.remove_char asterisk
    (Py.remove_char fullstop
       (Py.remove_char dquote
          (Py.remove_char squote (Py.strip topic)))).

(** [next((doc for doc in DOCUMENTS_INFO if doc.keyword == topic), None)] *)
Definition select_doc (topic : str) : option Doc :=
  List.find (λ doc, bool_decide (keyword doc = topic)) DOCUMENTS_INFO.

(** [event[key]], raising [KeyError(key)] when the key is missing. *)
Definition getitem (event : gmap string str) (key : string) : M str :=
  match event !! key with
  | Some v => ret v
  | None => raise ([squote] ++ u key ++ [squote])
  end.

(** [a or b] on values that are [None] or a string: the empty string is
    false as [None] is. *)
Definition py_or (a b : option str) : option str :=
  match a with
  | Some (_ :: _) => a
  | _ => b
  end.

(** [event.get(thread_ts) or event.get(ts)] *)
Definition thread_anchor (event : gmap string str) : option str :=
  py_or (event !! "thread_ts") (event !! "ts").

(** The question read from the event: the mention token is removed from
    an [app_mention] only. *)
Definition extract_query (event : gmap string str) (bot_user_id : str)
    : M str :=
  type ← getitem event "type";
  if bool_decide (type = u "app_mention") then
    text ← getitem event "text";
    ret (Py.strip (Py.remove_sub (u "<@" ++ bot_user_id ++ u ">") text))
  else
    text ← getitem event "text";
    ret (Py.strip text).

(** [channel_type == im or event[type] == app_mention] *)
Definition accepted (event : gmap string str) : M bool :=
  let channel_type := default [] (event !! "channel_type") in
  if bool_decide (channel_type = u "im") then ret true
  else
    type ← getitem event "type";
    ret (bool_decide (type = u "app_mention")).

(** The body of the [try] block. *)
Definition answer_query (env : Env) (channel_id : str)
    (thread_ts : option str) (thinking_ts user_query : str) : M unit :=
  topic ← get_gemini_response env (classification_prompt user_query);
  let topic := normalize_topic topic in
  match select_doc topic with
  | Some selected_doc_info =>
      let selected_file := filename selected_doc_info in
      slack_call env
        (ChatUpdate channel_id thinking_ts (reading_text selected_file));;
      context_text ← perform (λ _, read_text env selected_file)
                       (ReadText selected_file);
      reply_text ← get_gemini_response env
                     (final_query selected_file context_text user_query);
      slack_call env (ChatDelete channel_id thinking_ts);;
      send_long_message env channel_id thread_ts reply_text
  | None =>
      slack_call env (ChatUpdate channel_id thinking_ts no_document_text);;
      reply_text ← get_gemini_response env (fallback_query user_query);
      slack_call env (ChatUpdate channel_id thinking_ts reply_text);;
      ret tt
  end.

Definition handle_message (env : Env) (event : gmap string str)
    (bot_user_id : str) : M unit :=
  if bool_decide (is_Some (event !! "bot_id")) then ret tt
  else
    ok ← accepted event;
    if ok : bool then
      user_query ← extract_query event bot_user_id;
      if bool_decide (user_query = []) then ret tt
      else
        channel_id ← getitem event "channel";
        let thread_ts := thread_anchor event in
        thinking_ts ← slack_call env (Say thinking_text thread_ts);
        try_except
          (answer_query env channel_id thread_ts thinking_ts user_query)
          (λ e,
             slack_call env
               (ChatUpdate channel_id thinking_ts (error_text e));;
             ret tt)
    else ret tt.

(** A run starts from the empty trace. *)
Definition run {A} (m : M A) : list Call * Outcome A := m [].

(** ** Vocabulary of the statements *)

(** What [get_gemini_response] returns, and the calls it makes. *)
Definition gemini_text (env : Env) (prompt : str) : str :=
  if generative_model env then
    match generate_content_async env prompt with
    | inl text => text
    | inr e => gemini_error_text e
    end
  else no_api_key_text.

Definition gemini_calls (env : Env) (prompt : str) : list Call :=
  if generative_model env then [GenerateContent prompt] else [].

(** The posts of a plan of several parts, each under its header. *)
Definition numbered_posts (channel : str) (thread_ts : option str)
    (parts : list str) : list Call :=
  imap (λ i part, ChatPostMessage channel thread_ts
                    (part_text i (length parts) part)) parts.

(** No call to the chat platform fails. *)
Definition slack_ok (env : Env) : Prop :=
  ∀ tr c, ∃ r, slack env tr c = inl r.

(** The question of an event: what [extract_query] computes from its
    type and text. *)
Definition query_of (type text bot_user_id : str) : str :=
  if bool_decide (type = u "app_mention")
  then Py.strip (Py.remove_sub (u "<@" ++ bot_user_id ++ u ">") text)
  else Py.strip text.

(** An event that enters the pipeline: not written by a bot, a direct
    message or a mention, with the question [user_query] and the channel
    [channel_id]. *)
Definition accepted_query (event : gmap string str) (bot_user_id : str)
    (user_query channel_id : str) : Prop :=
  event !! "bot_id" = None
  ∧ ∃ type text,
      event !! "type" = Some type
      ∧ event !! "text" = Some text
      ∧ (default [] (event !! "channel_type") = u "im"
         ∨ type = u "app_mention")
      ∧ user_query = query_of type text bot_user_id
      ∧ user_query ≠ []
      ∧ event !! "channel" = Some channel_id.

(** The message identifier of the placeholder, when posting it
    succeeded. *)
Definition placeholder_ts (env : Env) (event : gmap string str)
    : option str :=
  match slack env [] (Say thinking_text (thread_anchor event)) with
  | inl ts => Some ts
  | inr _ => None
  end.

(** A call to the chat platform stays in the thread [thread_ts]: a new
    message is posted into it, an update or a deletion addresses the
    placeholder. *)
Definition anchored (thread_ts placeholder : option str) (c : Call) : Prop :=
  match c with
  | Say _ t => t = thread_ts
  | ChatPostMessage _ t _ => t = thread_ts
  | ChatUpdate _ ts _ => Some ts = placeholder
  | ChatDelete _ ts => Some ts = placeholder
  | GenerateContent _ | ReadText _ => True
  end.

(** Test data. *)

Definition letters (n : nat) : str := replicate n 97%N.

(** Two texts of 3500 characters with the first full stop at position
    3100: one ends with letters, the other with a second full stop. *)
Definition scenario_c_text : str :=
  letters 3100 ++ [fullstop] ++ letters 399.

Definition scenario_c_two_parts_text : str :=
  letters 3100 ++ [fullstop] ++ letters 398 ++ [fullstop].

Definition quiet_env : Env := {|
  generative_model := false;
  generate_content_async := λ _, inr [];
  read_text := λ _, inr [];
  slack := λ _ _, inl (u "1700000000.000200")
|}.

(** A model that files every question under the first topic and answers
    it with [reply]. *)
Definition zemi_env (user_query reply : str) (store : str + str) : Env := {|
  generative_model := true;
  generate_content_async := λ prompt,
    if bool_decide (prompt = classification_prompt user_query)
    then inl (u "ゼミ") else inl reply;
  read_text := λ _, store;
  slack := λ _ _, inl (u "1700000000.000200")
|}.

Definition dm_event (text : str) : gmap string str :=
  {[ "type" := u "message"; "channel_type" := u "im"; "text" := text;
     "channel" := u "D024BE91L"; "ts" := u "1700000000.000100" ]}.

Definition mention_event (text : str) : gmap string str :=
  {[ "type" := u "app_mention"; "text" := text;
     "channel" := u "C024BE91L"; "ts" := u "1700000000.000100" ]}.

Definition bot_event : gmap string str :=
  <["bot_id" := u "B01"]> (dm_event (u "hello")).

(** A model that finds no topic and answers every prompt with the same
    words. *)
Definition general_env : Env := {|
  generative_model := true;
  generate_content_async := λ _, inl (u "一般知識");
  read_text := λ _, inr [];
  slack := λ _ _, inl (u "1700000000.000200")
|}.

(** Every call a computation adds to the trace satisfies [P]. *)
Definition extends_with (P : Call → Prop) {A} (m : M A) : Prop :=
  ∀ tr, ∃ new, (m tr).1 = tr ++ new ∧ Forall P new.

Definition missing_file : str :=
  u "[Errno 2] No such file or directory: 'documents/zemi_unei.txt'".

Definition matched_env : Env := zemi_env (u "hi") (u "ok") (inl (u "doc")).

(** ** Further vocabulary *)

(** How a part that is not the last one ends: on a full stop, on a
    newline, or cut after [limit + 1] characters. *)
Definition cut_at_boundary (part : str) : Prop :=
  last part = Some fullstop ∨ last part = Some nl
  ∨ Py.len part = limit + 1.

(** A text that begins with a full stop and has a newline further on. *)
Definition leading_stop_text : str :=
  [fullstop] ++ letters 10 ++ [nl] ++ letters 3200.

(** A short text with a full stop and, after it, a newline. *)
Definition stop_then_newline_text : str := u "ab．cd" ++ [nl] ++ u "ef".

(** A chat platform that accepts one post and refuses the next. *)
Definition failing_post_env : Env := {|
  generative_model := true;
  generate_content_async := λ _, inl (u "一般知識");
  read_text := λ _, inr [];
  slack := λ tr _,
    match tr with
    | [] => inl (u "1700000000.000200")
    | _ => inr (u "ratelimited")
    end
|}.

(** A computation that ends, by returning or by raising. *)
Definition converges {A} (m : M A) : Prop :=
  ∀ tr, (m tr).2 ≠ Diverge.

(** White space only. *)
Definition blank (s : str) : Prop := Forall (λ c, Py.isspace c = true) s.

(** A text with no white space at either end. *)
Definition trimmed (s : str) : bool :=
  match s with
  | [] => true
  | c :: _ => negb (Py.isspace c)
  end
  && match last s with
     | None => true
     | Some c => negb (Py.isspace c)
     end.


(** A model whose every call raises. *)
Definition broken_model_env : Env := {|
  generative_model := true;
  generate_content_async := λ _, inr (u "429 quota exceeded");
  read_text := λ _, inr [];
  slack := λ _ _, inl (u "1700000000.000200")
|}.

(** A chat platform that refuses every new message after the
    placeholder and accepts everything else. *)
Definition refused_post_env : Env := {|
  generative_model := true;
  generate_content_async := λ prompt,
    if bool_decide (prompt = classification_prompt (u "hi"))
    then inl (u "ゼミ") else inl (u "ok");
  read_text := λ _, inl (u "doc");
  slack := λ _ c,
    match c with
    | ChatPostMessage _ _ _ => inr (u "msg_too_long")
    | _ => inl (u "1700000000.000200")
    end
|}.

Definition channel_event : gmap string str :=
  {[ "type" := u "message"; "channel_type" := u "channel";
     "text" := u "hello"; "channel" := u "C024BE91L";
     "ts" := u "1700000000.000100" ]}.

(** A direct message that was edited: the text is not at the top level
    of the event. *)
Definition edited_event : gmap string str :=
  {[ "type" := u "message"; "channel_type" := u "im";
     "subtype" := u "message_changed"; "channel" := u "D024BE91L";
     "ts" := u "1700000000.000100" ]}.

(** * Properties *)

Arguments u : simpl never.

(** ** Checks of the Python primitives *)

Example u_zemi : u "ゼミ" = [12476%N; 12511%N].
Proof. reflexivity. Qed.

Example u_fullstop : u "．" = [fullstop].
Proof. reflexivity. Qed.

Example u_thinking : take 2 (u "🤔 ど") = [129300%N; 32%N].
Proof. reflexivity. Qed.

Example rfind_ex : Py.rfind (u "a．b．cd") fullstop 0 4 = 3.
Proof. reflexivity. Qed.

Example rfind_none : Py.rfind (u "a．b．cd") fullstop 4 9 = -1.
Proof. reflexivity. Qed.

Example remove_sub_ex :
  Py.remove_sub (u "<@U1>") (u "<@U1> hi <@U1><@U2>") = u " hi <@U2>".
Proof. reflexivity. Qed.

Example fmt_nat_ex : Py.fmt_nat 120 = u "120".
Proof. reflexivity. Qed.

Example strip_ex : Py.strip (u "  a b 　") = u "a b".
Proof. reflexivity. Qed.

Example split_small :
  chunk_loop 5 (u "ab．cd") [] 0 = Some [u "ab．"; u "cd"].
Proof. reflexivity. Qed.

Example part_text_ex : part_text 0 2 (u "ab") = u "*1/2*" ++ [nl; nl] ++ u "ab".
Proof. reflexivity. Qed.

Example bot_event_run :
  run (handle_message quiet_env bot_event (u "U1")) = ([], Ret tt).
Proof. vm_compute. reflexivity. Qed.

Example dm_event_run :
  run (handle_message quiet_env (dm_event (u "hi")) (u "U1"))
  = ([Say thinking_text (Some (u "1700000000.000100"));
      ChatUpdate (u "D024BE91L") (u "1700000000.000200") no_document_text;
      ChatUpdate (u "D024BE91L") (u "1700000000.000200") no_api_key_text],
     Ret tt).
Proof. vm_compute. reflexivity. Qed.

(** ** The chunking loop *)

Section ChunkingFacts.
Implicit Types (text : str) (c : char).

Lemma rindex_lt c (s : str) k : Py.rindex c s = Some k → (k < length s)%nat.
Proof.
  revert k. induction s as [|x s IH]; intros k; simpl; [done|].
  destruct (Py.rindex c s) as [j|].
  - intros [= <-]. specialize (IH j eq_refl). lia.
  - destruct (x =? c)%N; [intros [= <-]; lia | done].
Qed.

Lemma slice_length text a b :
  0 ≤ a → Z.of_nat (length (Py.slice text a b)) ≤ Z.max 0 (b - a).
Proof. intros Ha. unfold Py.slice. rewrite length_take. lia. Qed.

Lemma slice_length_len text a b :
  0 ≤ a → a + Z.of_nat (length (Py.slice text a b)) ≤ Z.max a (Py.len text).
Proof.
  intros Ha. unfold Py.slice, Py.len.
  rewrite length_take, length_drop. lia.
Qed.

(** What [rfind] returns: [-1], or a position inside the window. *)
Lemma rfind_range text c a b :
  0 ≤ a →
  Py.rfind text c a b = -1
  ∨ (a ≤ Py.rfind text c a b < b ∧ Py.rfind text c a b < Py.len text).
Proof.
  intros Ha. unfold Py.rfind.
  destruct (Py.rindex c (Py.slice text a b)) as [k|] eqn:Hk; [right|by left].
  apply rindex_lt in Hk.
  pose proof (slice_length text a b Ha).
  pose proof (slice_length_len text a b Ha). lia.
Qed.

(** The loop always moves forward, and by at most [limit + 1]. *)
Lemma next_split_range text pos :
  0 ≤ pos → pos ≤ next_split text pos ≤ pos + limit.
Proof.
  intros Hpos. unfold next_split.
  pose proof (rfind_range text fullstop pos (pos + limit) Hpos) as H1.
  pose proof (rfind_range text nl pos (pos + limit) Hpos) as H2.
  unfold limit in *.
  repeat case_match; lia.
Qed.

Lemma concat_snoc_slice text (parts : list str) a b :
  0 ≤ a ≤ b →
  concat parts = take (Z.to_nat a) text →
  concat (parts ++ [Py.slice text a b]) = take (Z.to_nat b) text.
Proof.
  intros Hab Hc. rewrite concat_app, Hc. simpl. rewrite app_nil_r.
  unfold Py.slice. rewrite take_take_drop. f_equal. lia.
Qed.

(** The invariant of the loop: the parts emitted so far are the text up
    to [current_pos]; with [len(text) - current_pos] iterations left the
    loop ends, and then the parts are the whole text. *)
Lemma chunk_loop_invariant fuel text (parts : list str) pos :
  0 ≤ pos →
  Py.len text - pos ≤ Z.of_nat fuel →
  concat parts = take (Z.to_nat pos) text →
  ∃ r, chunk_loop fuel text parts pos = Some r ∧ concat r = text.
Proof.
  revert parts pos.
  induction fuel as [|fuel IH]; intros parts pos Hpos Hfuel Hinv; simpl.
  - destruct (Z.ltb_spec pos (Py.len text)); [lia|].
    exists parts. split; [done|]. rewrite Hinv.
    apply take_ge. unfold Py.len in *. lia.
  - destruct (Z.ltb_spec pos (Py.len text)).
    + pose proof (next_split_range text pos Hpos).
      apply IH; [lia|lia|].
      apply concat_snoc_slice; [lia|done].
    + exists parts. split; [done|]. rewrite Hinv.
      apply take_ge. unfold Py.len in *. lia.
Qed.

Lemma chunk_loop_terminates text :
  ∃ parts, split_parts text = Some parts ∧ concat parts = text.
Proof.
  apply chunk_loop_invariant; [done| unfold Py.len; lia | done].
Qed.
End ChunkingFacts.

Section RfindFacts.
Implicit Types (s : str) (c : char).

Lemma rindex_None c s : c ∉ s → Py.rindex c s = None.
Proof.
  induction s as [|x s IH]; intros Hnot; simpl; [done|].
  rewrite IH by (intros Hin; apply Hnot; by right).
  destruct (N.eqb_spec x c) as [->|]; [|done].
  exfalso. apply Hnot. by left.
Qed.

Lemma rindex_None_inv c s : Py.rindex c s = None → c ∉ s.
Proof.
  induction s as [|x s IH]; simpl; [intros _; apply not_elem_of_nil|].
  destruct (Py.rindex c s); [done|].
  destruct (N.eqb_spec x c); [done|].
  intros _. apply not_elem_of_cons. split; [congruence|by apply IH].
Qed.

Lemma rindex_Some_lookup c s k : Py.rindex c s = Some k → s !! k = Some c.
Proof.
  revert k. induction s as [|x s IH]; intros k; simpl; [done|].
  destruct (Py.rindex c s) as [j|].
  - intros [= <-]. by apply IH.
  - destruct (N.eqb_spec x c) as [->|]; [by intros [= <-]|done].
Qed.

Lemma rindex_Some_last c s k j :
  Py.rindex c s = Some k → (k < j)%nat → s !! j ≠ Some c.
Proof.
  revert k j. induction s as [|x s IH]; intros k j; simpl; [done|].
  destruct (Py.rindex c s) as [i|] eqn:Hi.
  - intros [= <-] Hlt. destruct j as [|j]; [lia|]. simpl.
    apply (IH i); [done|lia].
  - destruct (N.eqb_spec x c) as [->|]; [|done].
    intros [= <-] Hlt. destruct j as [|j]; [lia|]. simpl.
    intros Hj. apply list_elem_of_lookup_2 in Hj.
    by apply rindex_None_inv in Hi.
Qed.

Lemma rindex_is_Some c s i :
  s !! i = Some c → ∃ k, Py.rindex c s = Some k ∧ (i ≤ k)%nat.
Proof.
  intros Hi. destruct (Py.rindex c s) as [k|] eqn:Hk.
  - exists k. split; [done|].
    destruct (decide (i ≤ k)%nat); [done|].
    exfalso. apply (rindex_Some_last c s k i); [done|lia|done].
  - apply rindex_None_inv in Hk. apply list_elem_of_lookup_2 in Hi. done.
Qed.

Lemma rfind_None s c a b : c ∉ Py.slice s a b → Py.rfind s c a b = -1.
Proof. intros H. unfold Py.rfind. by rewrite rindex_None. Qed.

End RfindFacts.

Section LoopFacts.
Implicit Types (text : str) (parts : list str).

(** One iteration of the loop. *)
Lemma chunk_loop_step fuel text parts pos :
  pos < Py.len text →
  chunk_loop (S fuel) text parts pos
  = chunk_loop fuel text
      (parts ++ [Py.slice text pos (next_split text pos + 1)])
      (next_split text pos + 1).
Proof.
  intros Hlt. simpl. by destruct (Z.ltb_spec pos (Py.len text)); [|lia].
Qed.

Lemma chunk_loop_done fuel text parts pos :
  Py.len text ≤ pos → chunk_loop fuel text parts pos = Some parts.
Proof.
  intros Hle. destruct fuel; simpl;
    by destruct (Z.ltb_spec pos (Py.len text)); [lia|].
Qed.

(** More fuel does not change the result. *)
Lemma chunk_loop_fuel fuel fuel' text parts pos r :
  chunk_loop fuel text parts pos = Some r →
  (fuel ≤ fuel')%nat →
  chunk_loop fuel' text parts pos = Some r.
Proof.
  revert fuel' parts pos.
  induction fuel as [|fuel IH]; intros fuel' parts pos; simpl.
  - destruct (Z.ltb_spec pos (Py.len text)); [done|].
    intros [= <-] _. by apply chunk_loop_done.
  - destruct (Z.ltb_spec pos (Py.len text)).
    + intros Hr Hle. destruct fuel' as [|fuel']; [lia|].
      rewrite chunk_loop_step by done. apply IH; [done|lia].
    + intros [= <-] _. by apply chunk_loop_done.
Qed.

(** The parts already emitted stay, and an iteration adds one. *)
Lemma chunk_loop_prefix fuel text parts pos r :
  chunk_loop fuel text parts pos = Some r →
  ∃ more, r = parts ++ more ∧ (pos < Py.len text → more ≠ []).
Proof.
  revert parts pos.
  induction fuel as [|fuel IH]; intros parts pos; simpl.
  - destruct (Z.ltb_spec pos (Py.len text)); [done|].
    intros [= <-]. exists []. rewrite app_nil_r. split; [done|lia].
  - destruct (Z.ltb_spec pos (Py.len text)).
    + intros Hr. destruct (IH _ _ Hr) as (more & -> & _).
      eexists. rewrite <-app_assoc. split; [done|]. done.
    + intros [= <-]. exists []. rewrite app_nil_r. split; [done|lia].
Qed.

(** No part is longer than [limit + 1]. *)
Lemma chunk_loop_part_bound fuel text parts pos r :
  0 ≤ pos →
  chunk_loop fuel text parts pos = Some r →
  Forall (λ part, Py.len part ≤ limit + 1) parts →
  Forall (λ part, Py.len part ≤ limit + 1) r.
Proof.
  revert parts pos.
  induction fuel as [|fuel IH]; intros parts pos Hpos; simpl.
  - destruct (Z.ltb_spec pos (Py.len text)); [done|]. by intros [= <-].
  - destruct (Z.ltb_spec pos (Py.len text)); [|by intros [= <-]].
    intros Hr Hparts.
    pose proof (next_split_range text pos Hpos) as Hns.
    eapply IH; [|exact Hr|]; [lia|].
    apply Forall_app. split; [done|].
    apply Forall_singleton. unfold Py.len.
    pose proof (slice_length text pos (next_split text pos + 1) Hpos). lia.
Qed.

(** The posts of [send_long_message] when no post fails. *)
Lemma post_parts_ok env channel thread_ts n i parts tr :
  slack_ok env →
  post_parts env channel thread_ts n i parts tr
  = (tr ++ imap (λ j part, ChatPostMessage channel thread_ts
                              (part_text (i + j) n part)) parts,
     Ret tt).
Proof.
  intros Hok. revert i tr.
  induction parts as [|part rest IH]; intros i tr; simpl.
  - by rewrite app_nil_r.
  - unfold mbind, M_bind, bind, slack_call, perform.
    destruct (Hok tr (ChatPostMessage channel thread_ts (part_text i n part)))
      as [r ->].
    rewrite IH, <-app_assoc. simpl. rewrite Nat.add_0_r.
    do 3 f_equal. apply imap_ext. intros j x _. simpl. do 2 f_equal. lia.
Qed.

Lemma send_long_message_short env channel thread_ts text tr :
  slack_ok env →
  Py.len text ≤ limit →
  send_long_message env channel thread_ts text tr
  = (tr ++ [ChatPostMessage channel thread_ts text], Ret tt).
Proof.
  intros Hok Hle. unfold send_long_message.
  destruct (Z.leb_spec (Py.len text) limit); [|lia].
  unfold mbind, M_bind, bind, slack_call, perform.
  by destruct (Hok tr (ChatPostMessage channel thread_ts text)) as [r ->].
Qed.

Lemma send_long_message_long env channel thread_ts text parts tr :
  slack_ok env →
  limit < Py.len text →
  split_parts text = Some parts →
  send_long_message env channel thread_ts text tr
  = (tr ++ numbered_posts channel thread_ts parts, Ret tt).
Proof.
  intros Hok Hlt Hparts. unfold send_long_message.
  destruct (Z.leb_spec (Py.len text) limit); [lia|].
  rewrite Hparts. by rewrite post_parts_ok.
Qed.

(** The loop of [send_long_message] always ends. *)
Lemma send_long_message_ends env channel thread_ts text tr :
  (send_long_message env channel thread_ts text tr).2 ≠ Diverge.
Proof.
  unfold send_long_message.
  destruct (Py.len text <=? limit).
  - unfold mbind, M_bind, bind, slack_call, perform.
    by destruct (slack env tr _).
  - destruct (chunk_loop_terminates text) as (parts & -> & _).
    generalize (length parts) as n. generalize 0%nat as i. revert tr.
    induction parts as [|part rest IH]; intros tr i n; simpl; [done|].
    unfold mbind, M_bind, bind, slack_call, perform.
    destruct (slack env tr _); [apply IH|done].
Qed.
End LoopFacts.

(** C1: for every text longer than the limit, the loop of
    [send_long_message] ends, and the parts it has cut, put one after the
    other in their order, are the text itself: nothing is lost and nothing
    is repeated where two parts meet. *)
Theorem chunks_concat_to_text (text : str) :
  limit < Py.len text →
  ∃ parts,
    split_parts text = Some parts
    ∧ concat parts = text
    ∧ ∀ env channel thread_ts tr,
        (send_long_message env channel thread_ts text tr).2 ≠ Diverge.
Proof.
  intros _. destruct (chunk_loop_terminates text) as (parts & Hp & Hc).
  exists parts. split; [done|]. split; [done|].
  intros. apply send_long_message_ends.
Qed.

Lemma chunks_concat_to_text_witness :
  limit < Py.len (letters 2999 ++ [fullstop] ++ letters 500)
  ∧ ∃ parts,
      split_parts (letters 2999 ++ [fullstop] ++ letters 500) = Some parts
      ∧ concat parts = letters 2999 ++ [fullstop] ++ letters 500
      ∧ ∀ env channel thread_ts tr,
          (send_long_message env channel thread_ts
             (letters 2999 ++ [fullstop] ++ letters 500) tr).2 ≠ Diverge.
Proof.
  split; [by vm_compute|].
  apply (chunks_concat_to_text (letters 2999 ++ [fullstop] ++ letters 500)).
  by vm_compute.
Defined.

(** C2, at the text of 3001 letters: there is no full stop and no newline
    in it, the loop ends, and the one part it emits is the whole text,
    3001 characters, one more than the limit. *)
Theorem hard_cut_part_exceeds_limit :
  (fullstop ∉ letters 3001)
  ∧ (nl ∉ letters 3001)
  ∧ limit < Py.len (letters 3001)
  ∧ split_parts (letters 3001) = Some [letters 3001]
  ∧ ¬ Forall (λ part, Py.len part ≤ limit) [letters 3001].
Proof.
  split; [|split; [|split; [|split]]].
  - unfold letters. intros H. apply elem_of_replicate in H as [H _]. discriminate H.
  - unfold letters. intros H. apply elem_of_replicate in H as [H _]. discriminate H.
  - by vm_compute.
  - by vm_compute.
  - intros H. apply Forall_inv in H. apply H. by vm_compute.
Qed.

(** What does hold of every text: the loop ends and no part is longer
    than [limit + 1]. *)
Lemma chunk_parts_bound (text : str) :
  ∃ parts,
    split_parts text = Some parts
    ∧ Forall (λ part, Py.len part ≤ limit + 1) parts.
Proof.
  destruct (chunk_loop_terminates text) as (parts & Hp & _).
  exists parts. split; [done|].
  by apply (chunk_loop_part_bound (length text) text [] 0).
Qed.

(** ** Scenario C: a text of 3500 characters *)

(** C3 fails as it is stated: with the first full stop at position 3100,
    no newline, and nothing but letters after the full stop, the text of
    3500 characters is cut into three parts, not two, and the headers
    count to three. *)
Lemma scenario_c_three_parts :
  Py.len scenario_c_text = 3500
  ∧ scenario_c_text !! 3100%nat = Some fullstop
  ∧ (fullstop ∉ take 3100 scenario_c_text)
  ∧ (nl ∉ take 3000 scenario_c_text)
  ∧ split_parts scenario_c_text
    = Some [letters 3001; letters 99 ++ [fullstop]; letters 399]
  ∧ run (send_long_message quiet_env (u "C1") None scenario_c_text)
    = ([ChatPostMessage (u "C1") None
          (u "*1/3*" ++ [nl; nl] ++ letters 3001);
        ChatPostMessage (u "C1") None
          (u "*2/3*" ++ [nl; nl] ++ letters 99 ++ [fullstop]);
        ChatPostMessage (u "C1") None
          (u "*3/3*" ++ [nl; nl] ++ letters 399)],
       Ret tt).
Proof.
  split; [by vm_compute|]. split; [by vm_compute|].
  split; [|split; [|split]].
  - apply (bool_decide_unpack _). by vm_compute.
  - apply (bool_decide_unpack _). by vm_compute.
  - by vm_compute.
  - by vm_compute.
Qed.

Section ScenarioC.
Variable text : str.
Hypothesis Hlen : Py.len text = 3500.
Hypothesis Hstop : text !! 3100%nat = Some fullstop.
Hypothesis Hfirst : fullstop ∉ take 3100 text.
Hypothesis Hnl : nl ∉ take 3000 text.

Lemma scenario_c_length : length text = 3500%nat.
Proof using Hlen. unfold Py.len in Hlen. lia. Qed.

Lemma scenario_c_slice_from i :
  0 ≤ i → Py.slice text i (i + limit + 1 - 1) = take 3000 (drop (Z.to_nat i) text).
Proof. intros Hi. unfold Py.slice, limit. f_equal. lia. Qed.

(** The first iteration finds neither delimiter: a hard cut. *)
Lemma scenario_c_first_split : next_split text 0 = 3000.
Proof using Hfirst Hnl.
  unfold next_split.
  rewrite (rfind_None text fullstop).
  2:{ unfold Py.slice, limit. simpl Z.to_nat. rewrite drop_0.
      intros Hin. apply Hfirst.
      replace 3100%nat with (3000 + 100)%nat by lia.
      rewrite <-take_take_drop. apply elem_of_app. by left. }
  rewrite (rfind_None text nl).
  2:{ unfold Py.slice, limit. simpl Z.to_nat. by rewrite drop_0. }
  done.
Qed.

(** The second iteration stops at the last full stop of the text. *)
Lemma scenario_c_second_split :
  ∃ p, next_split text 3001 = p
       ∧ 3100 ≤ p < 3500
       ∧ text !! Z.to_nat p = Some fullstop
       ∧ ∀ j, (Z.to_nat p < j)%nat → text !! j ≠ Some fullstop.
Proof using Hlen Hstop.
  pose proof scenario_c_length as Hl.
  assert (Py.slice text 3001 (3001 + limit) = drop 3001 text) as Hslice.
  { unfold Py.slice, limit. replace (Z.to_nat 3001) with 3001%nat by lia.
    apply take_ge. rewrite length_drop. lia. }
  assert (drop 3001 text !! 99%nat = Some fullstop) as H99.
  { rewrite lookup_drop. by replace (3001 + 99)%nat with 3100%nat by lia. }
  destruct (rindex_is_Some _ _ _ H99) as (k & Hk & Hle).
  pose proof (rindex_lt _ _ _ Hk) as Hlt. rewrite length_drop in Hlt.
  exists (3001 + Z.of_nat k). split; [|split; [lia|split]].
  - unfold next_split, Py.rfind. rewrite Hslice, Hk.
    assert ((3001 + Z.of_nat k =? -1) = false) as E1 by (apply Z.eqb_neq; lia).
    assert ((3001 + Z.of_nat k <=? 3001) = false) as E2 by (apply Z.leb_gt; lia).
    rewrite E1. cbv beta iota zeta. rewrite E1, E2. reflexivity.
  - apply rindex_Some_lookup in Hk. rewrite lookup_drop in Hk.
    by replace (Z.to_nat (3001 + Z.of_nat k)) with (3001 + k)%nat by lia.
  - intros j Hj. replace j with (3001 + (j - 3001))%nat by lia.
    rewrite <-lookup_drop. apply (rindex_Some_last _ _ _ _ Hk). lia.
Qed.

Lemma scenario_c_parts :
  ∃ rest,
    split_parts text = Some (Py.slice text 0 3001 :: rest)
    ∧ rest ≠ []
    ∧ (length rest = 1%nat ↔ text !! 3499%nat = Some fullstop).
Proof using Hlen Hstop Hfirst Hnl.
  pose proof scenario_c_length as Hl.
  destruct scenario_c_second_split as (p & Hp & Hrange & Hat & Hlast).
  destruct (chunk_loop_terminates text) as (parts & Hparts & _).
  pose proof Hparts as Hrun. unfold split_parts in Hrun.
  rewrite Hl in Hrun. change 3500%nat with (S (S 3498)) in Hrun.
  rewrite chunk_loop_step in Hrun by lia.
  rewrite scenario_c_first_split in Hrun. simpl app in Hrun.
  change (3000 + 1) with 3001 in Hrun.
  rewrite chunk_loop_step in Hrun by lia.
  rewrite Hp in Hrun.
  destruct (chunk_loop_prefix _ _ _ _ _ Hrun) as (more & -> & Hmore).
  exists (Py.slice text 3001 (p + 1) :: more).
  split; [done|]. split; [done|].
  rewrite length_cons. split.
  - intros Hone.
    assert (more = []) as -> by (apply length_zero_iff_nil; lia).
    destruct (decide (p = 3499)) as [->|]; [done|].
    exfalso. apply Hmore; [lia|done].
  - intros H3499.
    assert (p = 3499) as ->.
    { destruct (decide (p = 3499)); [done|]. exfalso.
      apply (Hlast 3499%nat); [lia|done]. }
    rewrite chunk_loop_done in Hrun by lia.
    injection Hrun as Hrun. apply (f_equal length) in Hrun.
    rewrite <-Hrun. reflexivity.
Qed.
End ScenarioC.

(** C3, amended: for a text of 3500 characters whose first full stop is at
    position 3100 and which has no newline in its first 3000 characters,
    the first split point is the hard cut at position 3000 (the first part
    is the slice of the positions 0 to 3000), at least one more part
    follows, and there are exactly two parts if and only if the last
    character of the text is a full stop.  With no failing post, part
    [i] of [n] is posted under the header [*i/n*] and a blank line. *)
Theorem scenario_c_hard_cut (text : str) :
  Py.len text = 3500 →
  text !! 3100%nat = Some fullstop →
  fullstop ∉ take 3100 text →
  nl ∉ take 3000 text →
  next_split text 0 = 3000
  ∧ ∃ rest,
      split_parts text = Some (Py.slice text 0 3001 :: rest)
      ∧ rest ≠ []
      ∧ (length rest = 1%nat ↔ text !! 3499%nat = Some fullstop)
      ∧ ∀ env channel thread_ts tr,
          slack_ok env →
          send_long_message env channel thread_ts text tr
          = (tr ++ numbered_posts channel thread_ts
                     (Py.slice text 0 3001 :: rest),
             Ret tt).
Proof.
  intros Hlen Hstop Hfirst Hnl.
  split; [by apply scenario_c_first_split|].
  destruct (scenario_c_parts text Hlen Hstop Hfirst Hnl)
    as (rest & Hparts & Hne & Hiff).
  exists rest. repeat split; try done; try apply Hiff.
  intros env channel thread_ts tr Hok.
  apply send_long_message_long; [done|unfold limit; lia|done].
Qed.

Lemma scenario_c_hard_cut_witness :
  Py.len scenario_c_two_parts_text = 3500
  ∧ scenario_c_two_parts_text !! 3100%nat = Some fullstop
  ∧ (fullstop ∉ take 3100 scenario_c_two_parts_text)
  ∧ (nl ∉ take 3000 scenario_c_two_parts_text)
  ∧ next_split scenario_c_two_parts_text 0 = 3000
  ∧ ∃ rest,
      split_parts scenario_c_two_parts_text
      = Some (Py.slice scenario_c_two_parts_text 0 3001 :: rest)
      ∧ rest ≠ []
      ∧ (length rest = 1%nat
         ↔ scenario_c_two_parts_text !! 3499%nat = Some fullstop)
      ∧ ∀ env channel thread_ts tr,
          slack_ok env →
          send_long_message env channel thread_ts scenario_c_two_parts_text tr
          = (tr ++ numbered_posts channel thread_ts
                     (Py.slice scenario_c_two_parts_text 0 3001 :: rest),
             Ret tt).
Proof.
  assert (Py.len scenario_c_two_parts_text = 3500) as H1 by (by vm_compute).
  assert (scenario_c_two_parts_text !! 3100%nat = Some fullstop) as H2
    by (by vm_compute).
  assert (fullstop ∉ take 3100 scenario_c_two_parts_text) as H3
    by (apply (bool_decide_unpack _); by vm_compute).
  assert (nl ∉ take 3000 scenario_c_two_parts_text) as H4
    by (apply (bool_decide_unpack _); by vm_compute).
  split; [exact H1|]. split; [exact H2|]. split; [exact H3|].
  split; [exact H4|].
  exact (scenario_c_hard_cut scenario_c_two_parts_text H1 H2 H3 H4).
Defined.

Example two_part_headers channel thread_ts (a b : str) :
  numbered_posts channel thread_ts [a; b]
  = [ChatPostMessage channel thread_ts (u "*1/2*" ++ [nl; nl] ++ a);
     ChatPostMessage channel thread_ts (u "*2/2*" ++ [nl; nl] ++ b)].
Proof. reflexivity. Qed.

(** ** The label of the classifier *)

Section Strip.
Implicit Types (s l r : str).

Lemma lstrip_spaces l s :
  Forall (λ c, Py.isspace c = true) l → Py.lstrip (l ++ s) = Py.lstrip s.
Proof.
  induction 1 as [|c l Hc _ IH]; [done|].
  rewrite <-app_comm_cons. simpl. by rewrite Hc.
Qed.

Lemma lstrip_letter c s :
  Py.isspace c = false → Py.lstrip (c :: s) = c :: s.
Proof. intros Hc. simpl. by rewrite Hc. Qed.

(** [strip] takes the white space off both ends of a text that begins
    and ends with other characters. *)
Lemma strip_spaces l r a b s :
  Forall (λ c, Py.isspace c = true) l →
  Forall (λ c, Py.isspace c = true) r →
  Py.isspace a = false → Py.isspace b = false →
  Py.strip (l ++ (a :: s ++ [b]) ++ r) = a :: s ++ [b].
Proof.
  intros Hl Hr Ha Hb. unfold Py.strip, Py.rstrip.
  rewrite lstrip_spaces by done.
  rewrite <-app_comm_cons, lstrip_letter by done.
  rewrite app_comm_cons, !reverse_app.
  rewrite lstrip_spaces by by apply Forall_reverse.
  rewrite reverse_cons, reverse_app, reverse_singleton.
  rewrite <-!app_assoc. simpl app at 1.
  rewrite lstrip_letter by done.
  rewrite reverse_cons, reverse_app, reverse_involutive.
  by rewrite reverse_singleton.
Qed.
End Strip.

(** C5: the answers of the model that write the label in double quotes,
    in single quotes, between asterisks, with a full stop after it, or
    with white space around it all normalise to the same label, which is
    the keyword of the first entry of the catalog. *)
Theorem classifier_normalization_zemi (l r : str) :
  Forall (λ c, Py.isspace c = true) l →
  Forall (λ c, Py.isspace c = true) r →
  normalize_topic ([dquote] ++ u "ゼミ" ++ [dquote]) = u "ゼミ"
  ∧ normalize_topic ([squote] ++ u "ゼミ" ++ [squote]) = u "ゼミ"
  ∧ normalize_topic (u "*ゼミ*") = u "ゼミ"
  ∧ normalize_topic (u "ゼミ．") = u "ゼミ"
  ∧ normalize_topic (l ++ u "ゼミ" ++ r) = u "ゼミ"
  ∧ (u "ゼミ" ∈ doc_keywords)
  ∧ ∃ doc, select_doc (u "ゼミ") = Some doc
           ∧ keyword doc = u "ゼミ"
           ∧ filename doc = u "zemi_unei.txt".
Proof.
  intros Hl Hr.
  split; [by vm_compute|]. split; [by vm_compute|].
  split; [by vm_compute|]. split; [by vm_compute|]. split.
  - unfold normalize_topic.
    change (u "ゼミ") with (12476%N :: [] ++ [12511%N]).
    rewrite (strip_spaces l r 12476%N 12511%N []) by done.
    by vm_compute.
  - split; [apply (bool_decide_unpack _); by vm_compute|].
    eexists. split; [by vm_compute|]. by split.
Qed.

Lemma classifier_normalization_zemi_witness :
  Forall (λ c, Py.isspace c = true) (u "  ")
  ∧ Forall (λ c, Py.isspace c = true) [nl]
  ∧ normalize_topic (u "  " ++ u "ゼミ" ++ [nl]) = u "ゼミ".
Proof.
  assert (Forall (λ c, Py.isspace c = true) (u "  ")) as Hl
    by (repeat constructor).
  assert (Forall (λ c, Py.isspace c = true) [nl]) as Hr
    by (repeat constructor).
  split; [exact Hl|]. split; [exact Hr|].
  exact (proj1 (proj2 (proj2 (proj2 (proj2
           (classifier_normalization_zemi (u "  ") [nl] Hl Hr)))))).
Defined.

(** ** [get_gemini_response] *)

Lemma get_gemini_response_eq env prompt tr :
  get_gemini_response env prompt tr
  = (tr ++ gemini_calls env prompt, Ret (gemini_text env prompt)).
Proof.
  unfold get_gemini_response, gemini_calls, gemini_text.
  destruct (generative_model env); simpl; [|by rewrite app_nil_r].
  unfold try_except, mbind, M_bind, bind, perform.
  by destruct (generate_content_async env prompt).
Qed.

(** C7: whatever the prompt, [get_gemini_response] returns a text and
    raises nothing: the answer of the model when the call succeeds, and
    when the call raises [e] the apology with [e] written inside it. *)
Theorem get_gemini_response_absorbs_failure
    (env : Env) (prompt : str) (tr : list Call) :
  ∃ text tr',
    get_gemini_response env prompt tr = (tr', Ret text)
    ∧ text =
        if generative_model env then
          match generate_content_async env prompt with
          | inl answer => answer
          | inr e =>
              u "申し訳ありません、AIとの通信中にエラーが発生しました．("
                ++ e ++ u ")"
          end
        else u "Gemini APIキーが設定されていないため、応答できません．".
Proof.
  eexists _, _. split; [apply get_gemini_response_eq|]. done.
Qed.

(** ** Events that are dropped *)

(** C8: an event that carries [bot_id] makes the handler return at once;
    no call of any kind is issued, whatever else the event holds. *)
Theorem bot_message_ignored
    (env : Env) (event : gmap string str) (bot_user_id : str) :
  is_Some (event !! "bot_id") →
  ∀ tr, handle_message env event bot_user_id tr = (tr, Ret tt).
Proof.
  intros Hbot tr. unfold handle_message.
  by rewrite bool_decide_eq_true_2.
Qed.

Lemma bot_message_ignored_witness :
  is_Some (bot_event !! "bot_id")
  ∧ run (handle_message (zemi_env (u "hello") (u "ok") (inl (u "doc")))
           bot_event (u "U1")) = ([], Ret tt).
Proof.
  assert (is_Some (bot_event !! "bot_id")) as H
    by (exists (u "B01"); by vm_compute).
  split; [exact H|].
  exact (bot_message_ignored _ bot_event (u "U1") H []).
Defined.

(** ** The request monad *)

Section MonadFacts.
Context {A B : Type}.
Implicit Types (m : M A) (f : A → M B).

Lemma bind_ret_eq m f tr tr' a :
  m tr = (tr', Ret a) → (m ≫= f) tr = f a tr'.
Proof. intros H. unfold mbind, M_bind, bind. by rewrite H. Qed.

Lemma bind_raise_eq m f tr tr' e :
  m tr = (tr', Raise e) → (m ≫= f) tr = (tr', Raise e).
Proof. intros H. unfold mbind, M_bind, bind. by rewrite H. Qed.

Lemma try_except_ret m (h : str → M A) tr tr' a :
  m tr = (tr', Ret a) → try_except m h tr = (tr', Ret a).
Proof. intros H. unfold try_except. by rewrite H. Qed.

Lemma try_except_raise m (h : str → M A) tr tr' e :
  m tr = (tr', Raise e) → try_except m h tr = h e tr'.
Proof. intros H. unfold try_except. by rewrite H. Qed.

Lemma extends_ret P (a : A) : extends_with P (ret a).
Proof. intros tr. exists []. by rewrite app_nil_r. Qed.

Lemma extends_raise P e : extends_with P (@raise A e).
Proof. intros tr. exists []. by rewrite app_nil_r. Qed.

Lemma extends_diverge P : extends_with P (@diverge A).
Proof. intros tr. exists []. by rewrite app_nil_r. Qed.

Lemma extends_bind P m f :
  extends_with P m → (∀ a, extends_with P (f a)) → extends_with P (m ≫= f).
Proof.
  intros Hm Hf tr. unfold mbind, M_bind, bind.
  destruct (Hm tr) as (new & Htr & Hnew).
  destruct (m tr) as [tr' [a|e|]]; simpl in Htr; subst tr'; [|by eauto..].
  destruct (Hf a (tr ++ new)) as (new' & Htr' & Hnew').
  exists (new ++ new'). rewrite Htr', app_assoc. split; [done|].
  by apply Forall_app.
Qed.

Lemma extends_try P m (h : str → M A) :
  extends_with P m → (∀ e, extends_with P (h e)) →
  extends_with P (try_except m h).
Proof.
  intros Hm Hh tr. unfold try_except.
  destruct (Hm tr) as (new & Htr & Hnew).
  destruct (m tr) as [tr' [a|e|]]; simpl in Htr; subst tr'; [by eauto| |by eauto].
  destruct (Hh e (tr ++ new)) as (new' & Htr' & Hnew').
  exists (new ++ new'). rewrite Htr', app_assoc. split; [done|].
  by apply Forall_app.
Qed.
End MonadFacts.

Lemma extends_perform P answer c : P c → extends_with P (perform answer c).
Proof.
  intros Hc tr. exists [c]. unfold perform.
  destruct (answer tr); (split; [done|by constructor]).
Qed.

Lemma slack_call_ok env c tr r :
  slack env tr c = inl r → slack_call env c tr = (tr ++ [c], Ret r).
Proof. intros H. unfold slack_call, perform. by rewrite H. Qed.

Lemma slack_call_raise env c tr e :
  slack env tr c = inr e → slack_call env c tr = (tr ++ [c], Raise e).
Proof. intros H. unfold slack_call, perform. by rewrite H. Qed.

(** ** The calls of each function *)

Section Extends.
Variable P : Call → Prop.
Variable env : Env.

Lemma extends_get_gemini_response prompt :
  P (GenerateContent prompt) → extends_with P (get_gemini_response env prompt).
Proof.
  intros HP tr. rewrite get_gemini_response_eq. eexists. split; [done|].
  unfold gemini_calls. destruct (generative_model env); by repeat constructor.
Qed.

Lemma extends_post_parts channel thread_ts n i parts :
  (∀ text, P (ChatPostMessage channel thread_ts text)) →
  extends_with P (post_parts env channel thread_ts n i parts).
Proof.
  intros HP. revert i.
  induction parts as [|part rest IH]; intros i; simpl.
  - apply extends_ret.
  - apply extends_bind; [by apply extends_perform|]. intros _. apply IH.
Qed.

Lemma extends_send_long_message channel thread_ts text :
  (∀ text, P (ChatPostMessage channel thread_ts text)) →
  extends_with P (send_long_message env channel thread_ts text).
Proof.
  intros HP. unfold send_long_message. destruct (Py.len text <=? limit).
  - apply extends_bind; [by apply extends_perform|].
    intros _. apply extends_ret.
  - destruct (split_parts text); [by apply extends_post_parts|].
    apply extends_diverge.
Qed.

Lemma extends_answer_query channel_id thread_ts thinking_ts user_query :
  (∀ text, P (ChatPostMessage channel_id thread_ts text)) →
  (∀ text, P (ChatUpdate channel_id thinking_ts text)) →
  P (ChatDelete channel_id thinking_ts) →
  (∀ prompt, P (GenerateContent prompt)) →
  (∀ file, P (ReadText file)) →
  extends_with P
    (answer_query env channel_id thread_ts thinking_ts user_query).
Proof.
  intros Hpost Hupd Hdel Hgen Hread. unfold answer_query.
  apply extends_bind; [by apply extends_get_gemini_response|]. intros topic.
  destruct (select_doc (normalize_topic topic)) as [doc|].
  - apply extends_bind; [by apply extends_perform|]. intros _.
    apply extends_bind; [by apply extends_perform|]. intros context_text.
    apply extends_bind; [by apply extends_get_gemini_response|].
    intros reply_text.
    apply extends_bind; [by apply extends_perform|]. intros _.
    by apply extends_send_long_message.
  - apply extends_bind; [by apply extends_perform|]. intros _.
    apply extends_bind; [by apply extends_get_gemini_response|].
    intros reply_text.
    apply extends_bind; [by apply extends_perform|]. intros _.
    apply extends_ret.
Qed.
End Extends.

(** ** The handler *)

Section Handler.
Variable env : Env.
Variable event : gmap string str.
Variable bot_user_id : str.

Lemma getitem_Some key v tr :
  event !! key = Some v → getitem event key tr = (tr, Ret v).
Proof. intros H. unfold getitem. by rewrite H. Qed.

Lemma accepted_eq type tr :
  event !! "type" = Some type →
  accepted event tr
  = (tr, Ret (bool_decide (default [] (event !! "channel_type") = u "im")
              || bool_decide (type = u "app_mention"))).
Proof.
  intros Hty. unfold accepted. case_bool_decide; [done|].
  by rewrite (bind_ret_eq _ _ _ _ _ (getitem_Some _ _ _ Hty)).
Qed.

Lemma extract_query_eq type text tr :
  event !! "type" = Some type →
  event !! "text" = Some text →
  extract_query event bot_user_id tr
  = (tr, Ret (query_of type text bot_user_id)).
Proof.
  intros Hty Htext. unfold extract_query, query_of.
  rewrite (bind_ret_eq _ _ _ _ _ (getitem_Some _ _ _ Hty)).
  case_bool_decide;
    by rewrite (bind_ret_eq _ _ _ _ _ (getitem_Some _ _ _ Htext)).
Qed.

(** An accepted event with a question posts the placeholder and enters
    the [try] block. *)
Lemma handle_message_accepted user_query channel_id tr :
  accepted_query event bot_user_id user_query channel_id →
  handle_message env event bot_user_id tr
  = (slack_call env (Say thinking_text (thread_anchor event)) ≫= λ thinking_ts,
     try_except
       (answer_query env channel_id (thread_anchor event) thinking_ts
          user_query)
       (λ e, slack_call env
               (ChatUpdate channel_id thinking_ts (error_text e));;
             ret tt)) tr.
Proof.
  intros (Hbot & type & text & Hty & Htext & Horigin & Hq & Hne & Hch).
  unfold handle_message.
  rewrite bool_decide_eq_false_2 by (rewrite Hbot; by intros [? ?]).
  rewrite (bind_ret_eq _ _ _ _ _ (accepted_eq _ _ Hty)).
  assert (bool_decide (default [] (event !! "channel_type") = u "im")
          || bool_decide (type = u "app_mention") = true) as ->.
  { destruct Horigin as [H|H]; rewrite (bool_decide_eq_true_2 _ H);
      [done|apply orb_true_r]. }
  rewrite (bind_ret_eq _ _ _ _ _ (extract_query_eq _ _ _ Hty Htext)).
  rewrite <-Hq, bool_decide_eq_false_2 by done.
  by rewrite (bind_ret_eq _ _ _ _ _ (getitem_Some _ _ _ Hch)).
Qed.
End Handler.

(** ** An event without a question *)

(** C10 fails as it is stated: the mention token is removed from an
    [app_mention] only, so a direct message that holds nothing but the
    mention of the bot, empty once the token is removed and the rest is
    trimmed, is answered as any other question. *)
Lemma direct_message_of_a_mention_is_answered :
  Py.strip (Py.remove_sub (u "<@" ++ u "U1" ++ u ">") (u "<@U1> ")) = []
  ∧ dm_event (u "<@U1> ") !! "channel_type" = Some (u "im")
  ∧ run (handle_message general_env (dm_event (u "<@U1> ")) (u "U1"))
    = ([Say thinking_text (Some (u "1700000000.000100"));
        GenerateContent (classification_prompt (u "<@U1>"));
        ChatUpdate (u "D024BE91L") (u "1700000000.000200") no_document_text;
        GenerateContent (fallback_query (u "<@U1>"));
        ChatUpdate (u "D024BE91L") (u "1700000000.000200") (u "一般知識")],
       Ret tt).
Proof. split; [by vm_compute|]. split; by vm_compute. Qed.

(** C10, amended: when the question read from the event is empty, that is
    the text of an [app_mention] with the mention token removed and then
    trimmed, or the trimmed text of any other event, the handler returns
    without a single call: no placeholder, no classification, no
    generation, no reply. *)
Theorem empty_query_no_call
    (env : Env) (event : gmap string str) (bot_user_id type text : str) :
  event !! "type" = Some type →
  event !! "text" = Some text →
  query_of type text bot_user_id = [] →
  ∀ tr, handle_message env event bot_user_id tr = (tr, Ret tt).
Proof.
  intros Hty Htext Hq tr. unfold handle_message.
  case_bool_decide; [done|].
  rewrite (bind_ret_eq _ _ _ _ _ (accepted_eq _ _ _ Hty)).
  destruct (_ || _); [|done].
  rewrite (bind_ret_eq _ _ _ _ _ (extract_query_eq _ _ _ _ _ Hty Htext)).
  by rewrite Hq.
Qed.

Lemma empty_query_no_call_witness :
  mention_event (u " <@U1>  ") !! "type" = Some (u "app_mention")
  ∧ mention_event (u " <@U1>  ") !! "text" = Some (u " <@U1>  ")
  ∧ query_of (u "app_mention") (u " <@U1>  ") (u "U1") = []
  ∧ run (handle_message general_env (mention_event (u " <@U1>  ")) (u "U1"))
    = ([], Ret tt).
Proof.
  assert (mention_event (u " <@U1>  ") !! "type" = Some (u "app_mention"))
    as H1 by (by vm_compute).
  assert (mention_event (u " <@U1>  ") !! "text" = Some (u " <@U1>  "))
    as H2 by (by vm_compute).
  assert (query_of (u "app_mention") (u " <@U1>  ") (u "U1") = [])
    as H3 by (by vm_compute).
  split; [exact H1|]. split; [exact H2|]. split; [exact H3|].
  exact (empty_query_no_call general_env _ (u "U1") _ _ H1 H2 H3 []).
Defined.

(** ** The thread of the replies *)

(** C9: for an accepted event, direct message or mention alike, the
    placeholder is posted into the thread named by [thread_ts] when the
    event has a non-empty one and by [ts] otherwise; every later post goes
    into the same thread, and every update or deletion addresses the
    placeholder. *)
Theorem replies_anchored_to_thread
    (env : Env) (event : gmap string str)
    (bot_user_id user_query channel_id : str) :
  accepted_query event bot_user_id user_query channel_id →
  thread_anchor event
    = match event !! "thread_ts" with
      | Some (c :: t) => Some (c :: t)
      | _ => event !! "ts"
      end
  ∧ (∃ rest, (run (handle_message env event bot_user_id)).1
             = Say thinking_text (thread_anchor event) :: rest)
  ∧ Forall (anchored (thread_anchor event) (placeholder_ts env event))
      (run (handle_message env event bot_user_id)).1.
Proof.
  intros Hacc. split.
  { unfold thread_anchor, py_or. by destruct (event !! "thread_ts") as [[|c t]|]. }
  unfold run. rewrite (handle_message_accepted _ _ _ _ _ _ Hacc).
  unfold placeholder_ts.
  destruct (slack env [] (Say thinking_text (thread_anchor event)))
    as [ts|e] eqn:Hsay.
  - rewrite (bind_ret_eq _ _ _ _ _ (slack_call_ok _ _ _ _ Hsay)).
    match goal with |- context [try_except ?m ?h] =>
      assert (extends_with
                (anchored (thread_anchor event) (Some ts))
                (try_except m h)) as Hext
    end.
    { apply extends_try.
      - by apply extends_answer_query.
      - intros e. apply extends_bind; [by apply extends_perform|].
        intros _. apply extends_ret. }
    destruct (Hext ([] ++ [Say thinking_text (thread_anchor event)]))
      as (new & -> & Hnew).
    split; [by eexists|]. by constructor.
  - rewrite (bind_raise_eq _ _ _ _ _ (slack_call_raise _ _ _ _ Hsay)).
    split; [by eexists|]. by repeat constructor.
Qed.

Lemma replies_anchored_to_thread_witness :
  accepted_query (<["thread_ts" := u "1699999999.000001"]>
                    (mention_event (u "<@U1> hi")))
    (u "U1") (u "hi") (u "C024BE91L")
  ∧ thread_anchor (<["thread_ts" := u "1699999999.000001"]>
                     (mention_event (u "<@U1> hi")))
    = Some (u "1699999999.000001")
  ∧ Forall (anchored (Some (u "1699999999.000001"))
              (Some (u "1700000000.000200")))
      (run (handle_message general_env
              (<["thread_ts" := u "1699999999.000001"]>
                 (mention_event (u "<@U1> hi"))) (u "U1"))).1.
Proof.
  assert (accepted_query (<["thread_ts" := u "1699999999.000001"]>
                            (mention_event (u "<@U1> hi")))
            (u "U1") (u "hi") (u "C024BE91L")) as Hacc.
  { split; [by vm_compute|]. exists (u "app_mention"), (u "<@U1> hi").
    split; [by vm_compute|]. split; [by vm_compute|].
    split; [by right|]. split; [by vm_compute|].
    split; [by vm_compute|by vm_compute]. }
  split; [exact Hacc|]. split; [by vm_compute|].
  exact (proj2 (proj2 (replies_anchored_to_thread general_env _ _ _ _ Hacc))).
Defined.

(** ** The two branches of the [try] block *)

Section Branches.
Variable env : Env.
Variables (channel_id thinking_ts user_query : str).
Variable thread_ts : option str.

Lemma perform_read_ok file context_text tr :
  read_text env file = inl context_text →
  perform (λ _, read_text env file) (ReadText file) tr
  = (tr ++ [ReadText file], Ret context_text).
Proof. intros H. unfold perform. by rewrite H. Qed.

Lemma perform_read_raise file e tr :
  read_text env file = inr e →
  perform (λ _, read_text env file) (ReadText file) tr
  = (tr ++ [ReadText file], Raise e).
Proof. intros H. unfold perform. by rewrite H. Qed.

(** Matched, and the document cannot be read. *)
Lemma answer_query_read_failure doc e r tr :
  select_doc (normalize_topic
                (gemini_text env (classification_prompt user_query)))
  = Some doc →
  slack env (tr ++ gemini_calls env (classification_prompt user_query))
    (ChatUpdate channel_id thinking_ts (reading_text (filename doc)))
  = inl r →
  read_text env (filename doc) = inr e →
  answer_query env channel_id thread_ts thinking_ts user_query tr
  = (tr ++ gemini_calls env (classification_prompt user_query)
        ++ [ChatUpdate channel_id thinking_ts (reading_text (filename doc));
            ReadText (filename doc)],
     Raise e).
Proof.
  intros Hsel Hupd Hread. unfold answer_query.
  rewrite (bind_ret_eq _ _ _ _ _ (get_gemini_response_eq _ _ _)).
  cbv zeta. rewrite Hsel.
  rewrite (bind_ret_eq _ _ _ _ _ (slack_call_ok _ _ _ _ Hupd)).
  rewrite (bind_raise_eq _ _ _ _ _ (perform_read_raise _ _ _ Hread)).
  by rewrite <-!app_assoc.
Qed.

Hypothesis Hok : slack_ok env.

Lemma slack_call_ok' c tr : ∃ r, slack_call env c tr = (tr ++ [c], Ret r).
Proof. destruct (Hok tr c) as [r Hr]. exists r. by apply slack_call_ok. Qed.

(** Matched, the document is read: the placeholder is deleted and the
    answer is posted. *)
Lemma answer_query_matched doc context_text tr :
  select_doc (normalize_topic
                (gemini_text env (classification_prompt user_query)))
  = Some doc →
  read_text env (filename doc) = inl context_text →
  ∃ tr',
    tr' = tr ++ gemini_calls env (classification_prompt user_query)
             ++ [ChatUpdate channel_id thinking_ts
                   (reading_text (filename doc));
                 ReadText (filename doc)]
             ++ gemini_calls env
                  (final_query (filename doc) context_text user_query)
             ++ [ChatDelete channel_id thinking_ts]
    ∧ answer_query env channel_id thread_ts thinking_ts user_query tr
      = send_long_message env channel_id thread_ts
          (gemini_text env
             (final_query (filename doc) context_text user_query)) tr'.
Proof using Hok.
  intros Hsel Hread. eexists. split; [done|]. unfold answer_query.
  rewrite (bind_ret_eq _ _ _ _ _ (get_gemini_response_eq _ _ _)).
  cbv zeta. rewrite Hsel.
  destruct (slack_call_ok'
              (ChatUpdate channel_id thinking_ts (reading_text (filename doc)))
              (tr ++ gemini_calls env (classification_prompt user_query)))
    as [r1 H1].
  rewrite (bind_ret_eq _ _ _ _ _ H1).
  rewrite (bind_ret_eq _ _ _ _ _ (perform_read_ok _ _ _ Hread)).
  rewrite (bind_ret_eq _ _ _ _ _ (get_gemini_response_eq _ _ _)).
  match goal with |- context [slack_call env ?c ≫= _] =>
    match goal with |- (_ ≫= _) ?t = _ =>
      destruct (slack_call_ok' c t) as [r2 H2]
    end
  end.
  rewrite (bind_ret_eq _ _ _ _ _ H2).
  f_equal. by rewrite <-!app_assoc.
Qed.

(** Fallback: the placeholder is updated with the answer. *)
Lemma answer_query_fallback tr :
  select_doc (normalize_topic
                (gemini_text env (classification_prompt user_query)))
  = None →
  answer_query env channel_id thread_ts thinking_ts user_query tr
  = (tr ++ gemini_calls env (classification_prompt user_query)
        ++ [ChatUpdate channel_id thinking_ts no_document_text]
        ++ gemini_calls env (fallback_query user_query)
        ++ [ChatUpdate channel_id thinking_ts
              (gemini_text env (fallback_query user_query))],
     Ret tt).
Proof using Hok.
  intros Hsel. unfold answer_query.
  rewrite (bind_ret_eq _ _ _ _ _ (get_gemini_response_eq _ _ _)).
  cbv zeta. rewrite Hsel.
  destruct (slack_call_ok'
              (ChatUpdate channel_id thinking_ts no_document_text)
              (tr ++ gemini_calls env (classification_prompt user_query)))
    as [r1 H1].
  rewrite (bind_ret_eq _ _ _ _ _ H1).
  rewrite (bind_ret_eq _ _ _ _ _ (get_gemini_response_eq _ _ _)).
  match goal with |- context [slack_call env ?c ≫= _] =>
    match goal with |- (_ ≫= _) ?t = _ =>
      destruct (slack_call_ok' c t) as [r2 H2]
    end
  end.
  rewrite (bind_ret_eq _ _ _ _ _ H2).
  unfold ret. by rewrite <-!app_assoc.
Qed.
End Branches.

Lemma classification_is_not_fallback (user_query : str) :
  classification_prompt user_query ≠ fallback_query user_query.
Proof.
  intros H. apply (f_equal (take 5)) in H. by vm_compute in H.
Qed.

(** ** A document that cannot be read *)

(** C6: when the classifier has chosen a document and reading it raises
    [e], the handler goes to its [except] clause: the last call updates
    the placeholder with the error message that ends with [e].  The only
    call to the model is the classification; no answer is generated, from
    the fallback prompt or from any other. *)
Theorem matched_read_failure_is_error
    (env : Env) (event : gmap string str)
    (bot_user_id user_query channel_id ts r e : str) (doc : Doc) :
  accepted_query event bot_user_id user_query channel_id →
  slack env [] (Say thinking_text (thread_anchor event)) = inl ts →
  select_doc (normalize_topic
                (gemini_text env (classification_prompt user_query)))
  = Some doc →
  slack env
    ([Say thinking_text (thread_anchor event)]
       ++ gemini_calls env (classification_prompt user_query))
    (ChatUpdate channel_id ts (reading_text (filename doc)))
  = inl r →
  read_text env (filename doc) = inr e →
  (run (handle_message env event bot_user_id)).1
  = [Say thinking_text (thread_anchor event);
     GenerateContent (classification_prompt user_query);
     ChatUpdate channel_id ts (reading_text (filename doc));
     ReadText (filename doc);
     ChatUpdate channel_id ts
       (u "申し訳ありません．エラーが発生しました: " ++ e)]
  ∧ (∀ prompt,
       GenerateContent prompt ∈ (run (handle_message env event bot_user_id)).1 →
       prompt = classification_prompt user_query)
  ∧ GenerateContent (fallback_query user_query)
    ∉ (run (handle_message env event bot_user_id)).1.
Proof.
  intros Hacc Hsay Hsel Hupd Hread.
  assert (generative_model env = true) as Hmodel.
  { destruct (generative_model env) eqn:Hm; [done|].
    unfold gemini_text in Hsel. rewrite Hm in Hsel. by vm_compute in Hsel. }
  assert ((run (handle_message env event bot_user_id)).1
          = [Say thinking_text (thread_anchor event);
             GenerateContent (classification_prompt user_query);
             ChatUpdate channel_id ts (reading_text (filename doc));
             ReadText (filename doc);
             ChatUpdate channel_id ts
               (u "申し訳ありません．エラーが発生しました: " ++ e)]) as Htr.
  { unfold run. rewrite (handle_message_accepted _ _ _ _ _ _ Hacc).
    rewrite (bind_ret_eq _ _ _ _ _ (slack_call_ok _ _ _ _ Hsay)).
    rewrite (try_except_raise _ _ _ _ _
               (answer_query_read_failure _ _ _ _ _ _ _ _ _ Hsel Hupd Hread)).
    unfold gemini_calls. rewrite Hmodel.
    unfold mbind, M_bind, bind, slack_call, perform.
    unfold error_text.
    match goal with
    | |- context [match ?x with inl _ => _ | inr _ => _ end] => destruct x
    end; reflexivity. }
  assert (∀ prompt,
            GenerateContent prompt
            ∈ (run (handle_message env event bot_user_id)).1 →
            prompt = classification_prompt user_query) as Hgen.
  { rewrite Htr. intros prompt Hin.
    apply elem_of_cons in Hin as [Hin|Hin]; [discriminate Hin|].
    apply elem_of_cons in Hin as [Hin|Hin]; [injection Hin as Hin; exact Hin|].
    apply elem_of_cons in Hin as [Hin|Hin]; [discriminate Hin|].
    apply elem_of_cons in Hin as [Hin|Hin]; [discriminate Hin|].
    apply elem_of_cons in Hin as [Hin|Hin]; [discriminate Hin|].
    by apply elem_of_nil in Hin. }
  split; [exact Htr|]. split; [exact Hgen|].
  intros Hin. apply Hgen in Hin.
  exact (classification_is_not_fallback user_query (eq_sym Hin)).
Qed.

Lemma matched_read_failure_is_error_witness :
  accepted_query (dm_event (u "hi")) (u "U1") (u "hi") (u "D024BE91L")
  ∧ read_text (zemi_env (u "hi") (u "ok") (inr missing_file))
      (u "zemi_unei.txt") = inr missing_file
  ∧ (run (handle_message (zemi_env (u "hi") (u "ok") (inr missing_file))
            (dm_event (u "hi")) (u "U1"))).1
    = [Say thinking_text (thread_anchor (dm_event (u "hi")));
       GenerateContent (classification_prompt (u "hi"));
       ChatUpdate (u "D024BE91L") (u "1700000000.000200")
         (reading_text (u "zemi_unei.txt"));
       ReadText (u "zemi_unei.txt");
       ChatUpdate (u "D024BE91L") (u "1700000000.000200")
         (u "申し訳ありません．エラーが発生しました: " ++ missing_file)].
Proof.
  assert (accepted_query (dm_event (u "hi")) (u "U1") (u "hi")
            (u "D024BE91L")) as Hacc.
  { split; [by vm_compute|]. exists (u "message"), (u "hi").
    split; [by vm_compute|]. split; [by vm_compute|].
    split; [left; by vm_compute|]. split; [by vm_compute|].
    split; [by vm_compute|by vm_compute]. }
  split; [exact Hacc|]. split; [reflexivity|].
  refine (proj1 (matched_read_failure_is_error
            (zemi_env (u "hi") (u "ok") (inr missing_file))
            (dm_event (u "hi")) (u "U1") (u "hi") (u "D024BE91L")
            (u "1700000000.000200") (u "1700000000.000200") missing_file
            {| keyword := u "ゼミ"; filename := u "zemi_unei.txt";
               description := u "研究室のゼミのルール、発表者や座長の役割について説明している資料．" |}
            Hacc _ _ _ _)).
  - reflexivity.
  - by vm_compute.
  - reflexivity.
  - reflexivity.
Defined.

(** ** Delivery *)

(** C4 fails as it is stated: in the branch of a matched document an
    answer that fits in one message is not written over the placeholder;
    the placeholder is deleted and the answer is posted as a new
    message. *)
Lemma short_matched_answer_is_reposted :
  Py.len (u "ok") ≤ limit
  ∧ run (handle_message (zemi_env (u "hi") (u "ok") (inl (u "doc")))
           (dm_event (u "hi")) (u "U1"))
    = ([Say thinking_text (Some (u "1700000000.000100"));
        GenerateContent (classification_prompt (u "hi"));
        ChatUpdate (u "D024BE91L") (u "1700000000.000200")
          (reading_text (u "zemi_unei.txt"));
        ReadText (u "zemi_unei.txt");
        GenerateContent (final_query (u "zemi_unei.txt") (u "doc") (u "hi"));
        ChatDelete (u "D024BE91L") (u "1700000000.000200");
        ChatPostMessage (u "D024BE91L") (Some (u "1700000000.000100"))
          (u "ok")],
       Ret tt).
Proof. split; by vm_compute. Qed.

(** C4, amended: with no failing call to the chat platform, the branch of
    a matched document always deletes the placeholder and then posts the
    answer into the thread of the request, as one message, unchanged, when
    it fits the limit, and otherwise as its parts, in order, each under
    its header; the fallback branch delivers an answer that fits the limit
    by updating the placeholder, with no deletion and no new post. *)
Theorem delivery_by_branch
    (env : Env) (event : gmap string str)
    (bot_user_id user_query channel_id ts : str) :
  accepted_query event bot_user_id user_query channel_id →
  slack_ok env →
  slack env [] (Say thinking_text (thread_anchor event)) = inl ts →
  match select_doc (normalize_topic
                      (gemini_text env (classification_prompt user_query)))
  with
  | Some doc =>
      match read_text env (filename doc) with
      | inl context_text =>
          let prompt := final_query (filename doc) context_text user_query in
          ∃ posts,
            run (handle_message env event bot_user_id)
            = ([Say thinking_text (thread_anchor event)]
                 ++ gemini_calls env (classification_prompt user_query)
                 ++ [ChatUpdate channel_id ts (reading_text (filename doc));
                     ReadText (filename doc)]
                 ++ gemini_calls env prompt
                 ++ [ChatDelete channel_id ts]
                 ++ posts,
               Ret tt)
            ∧ (Py.len (gemini_text env prompt) ≤ limit →
               posts = [ChatPostMessage channel_id (thread_anchor event)
                          (gemini_text env prompt)])
            ∧ (limit < Py.len (gemini_text env prompt) →
               ∃ parts,
                 split_parts (gemini_text env prompt) = Some parts
                 ∧ concat parts = gemini_text env prompt
                 ∧ posts = numbered_posts channel_id (thread_anchor event)
                             parts)
      | inr _ => True
      end
  | None =>
      Py.len (gemini_text env (fallback_query user_query)) ≤ limit →
      run (handle_message env event bot_user_id)
      = ([Say thinking_text (thread_anchor event)]
           ++ gemini_calls env (classification_prompt user_query)
           ++ [ChatUpdate channel_id ts no_document_text]
           ++ gemini_calls env (fallback_query user_query)
           ++ [ChatUpdate channel_id ts
                 (gemini_text env (fallback_query user_query))],
         Ret tt)
  end.
Proof.
  intros Hacc Hok Hsay.
  destruct (select_doc _) as [doc|] eqn:Hsel.
  - destruct (read_text env (filename doc)) as [context_text|] eqn:Hread;
      [|done].
    cbv zeta. set (reply := gemini_text env _).
    destruct (answer_query_matched env channel_id ts user_query
                (thread_anchor event) Hok doc context_text
                [Say thinking_text (thread_anchor event)] Hsel Hread)
      as (tr' & Htr' & Hrun).
    assert (∃ posts,
              send_long_message env channel_id (thread_anchor event) reply tr'
              = (tr' ++ posts, Ret tt)
              ∧ (Py.len reply ≤ limit →
                 posts = [ChatPostMessage channel_id (thread_anchor event)
                            reply])
              ∧ (limit < Py.len reply →
                 ∃ parts, split_parts reply = Some parts
                          ∧ concat parts = reply
                          ∧ posts = numbered_posts channel_id
                                      (thread_anchor event) parts))
      as (posts & Hsend & Hshort & Hlong).
    { destruct (Z.le_gt_cases (Py.len reply) limit) as [Hle|Hgt].
      - eexists. split; [by apply send_long_message_short|].
        split; [done|lia].
      - destruct (chunk_loop_terminates reply) as (parts & Hparts & Hcat).
        eexists. split; [by apply send_long_message_long|].
        split; [lia|]. intros _. by exists parts. }
    subst reply. exists posts. split; [|done].
    unfold run. rewrite (handle_message_accepted _ _ _ _ _ _ Hacc).
    rewrite (bind_ret_eq _ _ _ _ _ (slack_call_ok _ _ _ _ Hsay)).
    rewrite app_nil_l. rewrite Hsend in Hrun.
    rewrite (try_except_ret _ _ _ _ _ Hrun). rewrite Htr'.
    by rewrite <-!app_assoc.
  - intros _.
    unfold run. rewrite (handle_message_accepted _ _ _ _ _ _ Hacc).
    rewrite (bind_ret_eq _ _ _ _ _ (slack_call_ok _ _ _ _ Hsay)).
    rewrite app_nil_l.
    by rewrite (try_except_ret _ _ _ _ _
                  (answer_query_fallback _ _ _ _ _ Hok _ Hsel)).
Qed.

Lemma delivery_by_branch_witness :
  accepted_query (dm_event (u "hi")) (u "U1") (u "hi") (u "D024BE91L")
  ∧ slack_ok matched_env
  ∧ slack matched_env []
      (Say thinking_text (thread_anchor (dm_event (u "hi"))))
    = inl (u "1700000000.000200")
  ∧ ∃ posts,
      run (handle_message matched_env (dm_event (u "hi")) (u "U1"))
      = ([Say thinking_text (thread_anchor (dm_event (u "hi")))]
           ++ gemini_calls matched_env (classification_prompt (u "hi"))
           ++ [ChatUpdate (u "D024BE91L") (u "1700000000.000200")
                 (reading_text (u "zemi_unei.txt"));
               ReadText (u "zemi_unei.txt")]
           ++ gemini_calls matched_env
                (final_query (u "zemi_unei.txt") (u "doc") (u "hi"))
           ++ [ChatDelete (u "D024BE91L") (u "1700000000.000200")]
           ++ posts,
         Ret tt)
      ∧ posts = [ChatPostMessage (u "D024BE91L")
                   (thread_anchor (dm_event (u "hi"))) (u "ok")].
Proof.
  assert (accepted_query (dm_event (u "hi")) (u "U1") (u "hi")
            (u "D024BE91L")) as Hacc.
  { split; [by vm_compute|]. exists (u "message"), (u "hi").
    split; [by vm_compute|]. split; [by vm_compute|].
    split; [left; by vm_compute|]. split; [by vm_compute|].
    split; [by vm_compute|by vm_compute]. }
  assert (slack_ok matched_env) as Hok by (intros tr c; by eexists).
  assert (slack matched_env []
            (Say thinking_text (thread_anchor (dm_event (u "hi"))))
          = inl (u "1700000000.000200")) as Hsay by reflexivity.
  split; [exact Hacc|]. split; [exact Hok|]. split; [exact Hsay|].
  pose proof (delivery_by_branch matched_env (dm_event (u "hi")) (u "U1")
                (u "hi") (u "D024BE91L") (u "1700000000.000200")
                Hacc Hok Hsay) as H.
  assert (select_doc
            (normalize_topic
               (gemini_text matched_env (classification_prompt (u "hi"))))
          = Some {| keyword := u "ゼミ"; filename := u "zemi_unei.txt";
                    description := u "研究室のゼミのルール、発表者や座長の役割について説明している資料．" |})
    as Hsel by (by vm_compute).
  rewrite Hsel in H.
  cbv beta iota zeta delta [matched_env zemi_env read_text filename] in H.
  destruct H as (posts & Hrun & Hshort & _).
  exists posts. split; [exact Hrun|].
  apply Hshort. by vm_compute.
Defined.

(** * Further properties of the chunking *)

Section SliceFacts.
Implicit Types (s : str) (c : char).

Lemma slice_length_exact s a b :
  0 ≤ a ≤ b → b ≤ Py.len s →
  Z.of_nat (length (Py.slice s a b)) = b - a.
Proof.
  intros Hab Hb. unfold Py.slice, Py.len in *.
  rewrite length_take, length_drop. lia.
Qed.

Lemma slice_nonempty s a b : 0 ≤ a < b → a < Py.len s → Py.slice s a b ≠ [].
Proof.
  intros Hab Ha Hnil. apply (f_equal length) in Hnil.
  unfold Py.slice, Py.len in *.
  rewrite length_take, length_drop in Hnil. simpl in Hnil. lia.
Qed.

Lemma slice_lookup s a b (k : nat) c :
  0 ≤ a → Py.slice s a b !! k = Some c → s !! Z.to_nat (a + Z.of_nat k) = Some c.
Proof.
  intros Ha Hk. unfold Py.slice in Hk.
  apply lookup_take_Some in Hk as [Hk _]. rewrite lookup_drop in Hk.
  by replace (Z.to_nat (a + Z.of_nat k)) with (Z.to_nat a + k)%nat by lia.
Qed.

Lemma lookup_slice s a b (j : Z) :
  0 ≤ a ≤ j → j < b →
  Py.slice s a b !! Z.to_nat (j - a) = s !! Z.to_nat j.
Proof.
  intros Ha Hb. unfold Py.slice.
  rewrite lookup_take_lt by lia. rewrite lookup_drop. f_equal. lia.
Qed.

Lemma slice_last s a b :
  0 ≤ a < b → b ≤ Py.len s → last (Py.slice s a b) = s !! Z.to_nat (b - 1).
Proof.
  intros Hab Hb. rewrite last_lookup.
  pose proof (slice_length_exact s a b ltac:(lia) Hb) as Hlen.
  replace (Init.Nat.pred (length (Py.slice s a b)))
    with (Z.to_nat ((b - 1) - a)) by lia.
  apply lookup_slice; lia.
Qed.

(** A position returned by [rfind] holds the character searched. *)
Lemma rfind_lookup s c a b :
  0 ≤ a → Py.rfind s c a b ≠ -1 →
  s !! Z.to_nat (Py.rfind s c a b) = Some c.
Proof.
  intros Ha. unfold Py.rfind.
  destruct (Py.rindex c (Py.slice s a b)) as [k|] eqn:Hk; [|done].
  intros _. apply rindex_Some_lookup in Hk. by apply slice_lookup in Hk.
Qed.

(** [rfind] returns the last occurrence in the window. *)
Lemma rfind_last s c a b (p : Z) :
  0 ≤ a ≤ p → p < b →
  s !! Z.to_nat p = Some c →
  (∀ j, p < j < b → s !! Z.to_nat j ≠ Some c) →
  Py.rfind s c a b = p.
Proof.
  intros Ha Hb Hp Hlast. unfold Py.rfind.
  assert (Py.slice s a b !! Z.to_nat (p - a) = Some c) as Hin
    by (by rewrite lookup_slice).
  destruct (rindex_is_Some _ _ _ Hin) as (k & Hk & Hle). rewrite Hk.
  pose proof (rindex_lt _ _ _ Hk) as Hlt.
  pose proof (slice_length s a b ltac:(lia)) as Hlen.
  apply rindex_Some_lookup in Hk. apply slice_lookup in Hk; [|lia].
  destruct (decide (a + Z.of_nat k = p)) as [|Hne]; [done|].
  exfalso. apply (Hlast (a + Z.of_nat k)); [lia|done].
Qed.
End SliceFacts.

Section SplitChoice.
Variable text : str.
Variable pos : Z.
Hypothesis Hpos : 0 ≤ pos.

(** The three ways the split point is chosen. *)
Lemma next_split_cases :
  (next_split text pos = pos + limit)
  ∨ (pos < next_split text pos < pos + limit
     ∧ next_split text pos < Py.len text
     ∧ text !! Z.to_nat (next_split text pos) = Some fullstop)
  ∨ (pos < next_split text pos < pos + limit
     ∧ next_split text pos < Py.len text
     ∧ text !! Z.to_nat (next_split text pos) = Some nl).
Proof using Hpos.
  unfold next_split.
  pose proof (rfind_range text fullstop pos (pos + limit) Hpos) as H1.
  pose proof (rfind_range text nl pos (pos + limit) Hpos) as H2.
  pose proof (rfind_lookup text fullstop pos (pos + limit) Hpos) as L1.
  pose proof (rfind_lookup text nl pos (pos + limit) Hpos) as L2.
  destruct (Z.eqb_spec (Py.rfind text fullstop pos (pos + limit)) (-1))
    as [E1|E1]; cbv zeta.
  - destruct (Z.eqb_spec (Py.rfind text nl pos (pos + limit)) (-1)) as [E2|E2];
      [by left|].
    destruct (Z.leb_spec (Py.rfind text nl pos (pos + limit)) pos);
      [by left|].
    right; right. simpl. split; [lia|]. split; [lia|]. by apply L2.
  - rewrite (proj2 (Z.eqb_neq _ _) E1).
    destruct (Z.leb_spec (Py.rfind text fullstop pos (pos + limit)) pos);
      [by left|].
    right; left. simpl. split; [lia|]. split; [lia|]. by apply L1.
Qed.
End SplitChoice.

(** X1: a text that fits the limit is posted once, as it is, with no
    header; the call is the only one made, and its failure is the failure
    of [send_long_message]. *)
Theorem short_message_single_post
    (env : Env) (channel : str) (thread_ts : option str) (text : str)
    (tr : list Call) :
  Py.len text ≤ limit →
  send_long_message env channel thread_ts text tr
  = (tr ++ [ChatPostMessage channel thread_ts text],
     match slack env tr (ChatPostMessage channel thread_ts text) with
     | inl _ => Ret tt
     | inr e => Raise e
     end).
Proof.
  intros Hle. unfold send_long_message.
  destruct (Z.leb_spec (Py.len text) limit); [|lia].
  unfold mbind, M_bind, bind, slack_call, perform.
  by destruct (slack env tr _).
Qed.

Lemma short_message_single_post_witness :
  Py.len (letters 3000) ≤ limit
  ∧ send_long_message quiet_env (u "C1") None (letters 3000) []
    = ([ChatPostMessage (u "C1") None (letters 3000)], Ret tt).
Proof.
  assert (Py.len (letters 3000) ≤ limit) as H by (by vm_compute).
  split; [exact H|].
  exact (short_message_single_post quiet_env (u "C1") None (letters 3000) [] H).
Defined.

Section PartsShape.
Variable text : str.

Lemma chunk_loop_nonempty fuel (parts : list str) pos r :
  0 ≤ pos →
  chunk_loop fuel text parts pos = Some r →
  Forall (λ part, part ≠ []) parts →
  Forall (λ part, part ≠ []) r.
Proof.
  revert parts pos.
  induction fuel as [|fuel IH]; intros parts pos Hpos; simpl.
  - destruct (Z.ltb_spec pos (Py.len text)); [done|]. by intros [= <-].
  - destruct (Z.ltb_spec pos (Py.len text)); [|by intros [= <-]].
    intros Hr Hparts.
    pose proof (next_split_range text pos Hpos) as Hns.
    eapply IH; [|exact Hr|]; [lia|].
    apply Forall_app. split; [done|].
    apply Forall_singleton. apply slice_nonempty; lia.
Qed.

Lemma chunk_loop_boundaries fuel (parts : list str) pos r :
  0 ≤ pos →
  chunk_loop fuel text parts pos = Some r →
  ∃ more, r = parts ++ more
          ∧ ∀ init l, more = init ++ [l] → Forall cut_at_boundary init.
Proof.
  revert parts pos.
  induction fuel as [|fuel IH]; intros parts pos Hpos; simpl.
  - destruct (Z.ltb_spec pos (Py.len text)); [done|].
    intros [= <-]. exists []. rewrite app_nil_r. split; [done|].
    intros init l Heq. by destruct init.
  - destruct (Z.ltb_spec pos (Py.len text)) as [Hlt|Hge].
    2:{ intros [= <-]. exists []. rewrite app_nil_r. split; [done|].
        intros init l Heq. by destruct init. }
    intros Hr.
    pose proof (next_split_range text pos Hpos) as Hns.
    destruct (Z.lt_ge_cases (next_split text pos + 1) (Py.len text))
      as [Hmore|Hend].
    + pose proof Hr as Hr0.
      apply IH in Hr as (more & -> & Hshape); [|lia].
      exists (Py.slice text pos (next_split text pos + 1) :: more).
      rewrite <-app_assoc. split; [done|].
      intros init l Heq. destruct init as [|p init].
      * simpl in Heq. injection Heq as _ Hnil.
        destruct (chunk_loop_prefix _ _ _ _ _ Hr0) as (more' & Hr' & Hne).
        apply app_inv_head in Hr'. subst more'. by destruct (Hne Hmore).
      * simpl in Heq. injection Heq as <- Heq.
        constructor; [|by apply (Hshape init l)].
        unfold cut_at_boundary.
        rewrite slice_last by lia.
        replace (next_split text pos + 1 - 1) with (next_split text pos)
          by lia.
        destruct (next_split_cases text pos Hpos) as [Hcut|[Hstop|Hnl]].
        -- right; right. unfold Py.len.
           rewrite slice_length_exact by lia. lia.
        -- left. apply Hstop.
        -- right; left. apply Hnl.
    + rewrite chunk_loop_done in Hr by lia. injection Hr as <-.
      eexists. split; [done|]. intros init l Heq.
      destruct init as [|p [|q init]]; [done|discriminate Heq..].
Qed.
End PartsShape.

(** X2: no part is empty, so no message is posted with a header alone,
    and a text has at most as many parts as characters. *)
Theorem parts_are_nonempty (text : str) :
  ∃ parts,
    split_parts text = Some parts
    ∧ Forall (λ part, part ≠ []) parts
    ∧ (length parts ≤ length text)%nat.
Proof.
  destruct (chunk_loop_terminates text) as (parts & Hp & Hcat).
  exists parts. split; [done|].
  assert (Forall (λ part, part ≠ []) parts) as Hne
    by (by apply (chunk_loop_nonempty text (length text) [] 0)).
  split; [done|].
  rewrite <-Hcat. clear Hp Hcat.
  induction Hne as [|p ps Hp _ IH]; [done|].
  simpl. rewrite length_app. destruct p; [done|]. simpl. lia.
Qed.

(** X4: every part but the last ends where the loop chose to cut: on a
    full stop, on a newline, or after exactly [limit + 1] characters when
    neither was found. *)
Theorem parts_end_at_boundaries (text : str) (init : list str) (l : str) :
  split_parts text = Some (init ++ [l]) →
  Forall cut_at_boundary init.
Proof.
  intros Hparts.
  destruct (chunk_loop_boundaries text _ _ _ _ ltac:(done) Hparts)
    as (more & Heq & Hshape).
  simpl in Heq. subst more. by apply (Hshape init l).
Qed.

Lemma parts_end_at_boundaries_witness :
  split_parts scenario_c_text
  = Some ([letters 3001; letters 99 ++ [fullstop]] ++ [letters 399])
  ∧ Forall cut_at_boundary [letters 3001; letters 99 ++ [fullstop]].
Proof.
  assert (split_parts scenario_c_text
          = Some ([letters 3001; letters 99 ++ [fullstop]] ++ [letters 399]))
    as H by (by vm_compute).
  split; [exact H|].
  exact (parts_end_at_boundaries scenario_c_text _ _ H).
Defined.

(** X5: a text of more than [limit + 1] characters is cut into at least
    two parts. *)
Theorem long_text_has_two_parts (text : str) :
  limit + 1 < Py.len text →
  ∃ parts, split_parts text = Some parts ∧ (2 ≤ length parts)%nat.
Proof.
  intros Hlong.
  destruct (chunk_loop_terminates text) as (parts & Hp & Hcat).
  exists parts. split; [done|].
  pose proof (chunk_loop_part_bound (length text) text [] 0 parts
                ltac:(done) Hp ltac:(constructor)) as Hbound.
  destruct parts as [|p [|q parts]]; [| |simpl; lia].
  - simpl in Hcat. subst text. unfold limit, Py.len in Hlong. simpl in Hlong. lia.
  - simpl in Hcat. rewrite app_nil_r in Hcat. subst p.
    apply Forall_inv in Hbound. lia.
Qed.

Lemma long_text_has_two_parts_witness :
  limit + 1 < Py.len (letters 3002)
  ∧ ∃ parts, split_parts (letters 3002) = Some parts
             ∧ (2 ≤ length parts)%nat.
Proof.
  assert (limit + 1 < Py.len (letters 3002)) as H by (by vm_compute).
  split; [exact H|].
  exact (long_text_has_two_parts (letters 3002) H).
Defined.

(** X6: a full stop is preferred to a newline: when the window of
    [limit] characters that starts at [pos] has a full stop after [pos],
    the text is cut at the last of these, wherever the newlines are. *)
Theorem split_prefers_full_stop (text : str) (pos p : Z) :
  0 ≤ pos → pos < p < pos + limit →
  text !! Z.to_nat p = Some fullstop →
  (∀ j, p < j < pos + limit → text !! Z.to_nat j ≠ Some fullstop) →
  next_split text pos = p.
Proof.
  intros Hpos Hp Hat Hlast. unfold next_split.
  rewrite (rfind_last text fullstop pos (pos + limit) p) by (done || lia).
  rewrite (proj2 (Z.eqb_neq p (-1))) by lia. cbv zeta.
  rewrite (proj2 (Z.eqb_neq p (-1))) by lia.
  by rewrite (proj2 (Z.leb_gt p pos)) by lia.
Qed.

Lemma split_prefers_full_stop_witness :
  0 ≤ 0 ∧ 0 < 2 < 0 + limit
  ∧ stop_then_newline_text !! Z.to_nat 2 = Some fullstop
  ∧ stop_then_newline_text !! Z.to_nat 5 = Some nl
  ∧ (∀ j, 2 < j < 0 + limit →
          stop_then_newline_text !! Z.to_nat j ≠ Some fullstop)
  ∧ next_split stop_then_newline_text 0 = 2.
Proof.
  assert (∀ j, 2 < j < 0 + limit →
               stop_then_newline_text !! Z.to_nat j ≠ Some fullstop) as Hlast.
  { intros j Hj Hin.
    assert (Z.to_nat j < length stop_then_newline_text)%nat as Hlt
      by (by apply lookup_lt_Some in Hin).
    assert (j = 3 ∨ j = 4 ∨ j = 5 ∨ j = 6 ∨ j = 7) as Hcases
      by (change (length stop_then_newline_text) with 8%nat in Hlt; lia).
    destruct Hcases as [->|[->|[->|[->| ->]]]]; discriminate Hin. }
  split; [lia|]. split; [by vm_compute|]. split; [reflexivity|].
  split; [reflexivity|]. split; [exact Hlast|].
  apply split_prefers_full_stop; [lia|by vm_compute|reflexivity|exact Hlast].
Defined.

(** X7: a full stop that is the very first character of the window does
    not count and hides the newlines: when no other full stop is in the
    window the text is cut after [limit + 1] characters, newline or
    not. *)
Theorem leading_full_stop_forces_hard_cut (text : str) (pos : Z) :
  0 ≤ pos →
  text !! Z.to_nat pos = Some fullstop →
  (∀ j, pos < j < pos + limit → text !! Z.to_nat j ≠ Some fullstop) →
  next_split text pos = pos + limit.
Proof.
  intros Hpos Hat Hlast. unfold next_split.
  rewrite (rfind_last text fullstop pos (pos + limit) pos)
    by (done || unfold limit; lia).
  rewrite (proj2 (Z.eqb_neq pos (-1))) by lia. cbv zeta.
  rewrite (proj2 (Z.eqb_neq pos (-1))) by lia.
  by rewrite Z.leb_refl.
Qed.

Lemma leading_full_stop_forces_hard_cut_witness :
  0 ≤ 0
  ∧ leading_stop_text !! Z.to_nat 0 = Some fullstop
  ∧ leading_stop_text !! 11%nat = Some nl
  ∧ (∀ j, 0 < j < 0 + limit →
          leading_stop_text !! Z.to_nat j ≠ Some fullstop)
  ∧ next_split leading_stop_text 0 = 0 + limit.
Proof.
  assert (∀ j, 0 < j < 0 + limit →
               leading_stop_text !! Z.to_nat j ≠ Some fullstop) as Hlast.
  { intros j Hj Hin.
    assert (fullstop ∉ drop 1 leading_stop_text) as Hnot
      by (apply (bool_decide_unpack _); by vm_compute).
    apply Hnot.
    replace (Z.to_nat j) with (1 + (Z.to_nat j - 1))%nat in Hin by lia.
    rewrite <-lookup_drop in Hin. by apply list_elem_of_lookup_2 in Hin. }
  split; [lia|]. split; [reflexivity|]. split; [by vm_compute|].
  split; [exact Hlast|].
  apply leading_full_stop_forces_hard_cut; [lia|reflexivity|exact Hlast].
Defined.

(** ** The order of the posts *)




Example second_post_fails :
  send_long_message failing_post_env (u "C1") None scenario_c_text []
  = ([ChatPostMessage (u "C1") None (part_text 0 3 (letters 3001));
      ChatPostMessage (u "C1") None
        (part_text 1 3 (letters 99 ++ [fullstop]))],
     Raise (u "ratelimited")).
Proof. by vm_compute. Qed.

(** * Further properties of the handler *)

Section EventFacts.
Variable env : Env.
Variable event : gmap string str.
Variable bot_user_id : str.

Lemma getitem_None key tr :
  event !! key = None →
  getitem event key tr = (tr, Raise ([squote] ++ u key ++ [squote])).
Proof. intros H. unfold getitem. by rewrite H. Qed.

Lemma handle_message_not_bot tr :
  event !! "bot_id" = None →
  handle_message env event bot_user_id tr
  = (accepted event ≫= λ ok : bool,
       if ok then
         extract_query event bot_user_id ≫= λ user_query,
         if bool_decide (user_query = []) then ret tt
         else
           getitem event "channel" ≫= λ channel_id,
           slack_call env (Say thinking_text (thread_anchor event))
             ≫= λ thinking_ts,
           try_except
             (answer_query env channel_id (thread_anchor event) thinking_ts
                user_query)
             (λ e, slack_call env
                     (ChatUpdate channel_id thinking_ts (error_text e));;
                   ret tt)
       else ret tt) tr.
Proof.
  intros Hbot. unfold handle_message.
  by rewrite bool_decide_eq_false_2 by (rewrite Hbot; by intros [? ?]).
Qed.

Lemma handle_message_empty_query type text tr :
  event !! "type" = Some type →
  event !! "text" = Some text →
  query_of type text bot_user_id = [] →
  handle_message env event bot_user_id tr = (tr, Ret tt).
Proof.
  intros Hty Htext Hq. unfold handle_message.
  case_bool_decide; [done|].
  rewrite (bind_ret_eq _ _ _ _ _ (accepted_eq _ _ _ Hty)).
  destruct (_ || _); [|done].
  rewrite (bind_ret_eq _ _ _ _ _ (extract_query_eq _ _ _ _ _ Hty Htext)).
  by rewrite Hq.
Qed.
End EventFacts.

(** X9: an event that is neither a direct message nor a mention is
    ignored: no call is made and nothing is raised. *)
Theorem other_event_ignored
    (env : Env) (event : gmap string str) (bot_user_id type : str) :
  default [] (event !! "channel_type") ≠ u "im" →
  event !! "type" = Some type →
  type ≠ u "app_mention" →
  ∀ tr, handle_message env event bot_user_id tr = (tr, Ret tt).
Proof.
  intros Hdm Hty Hmention tr. unfold handle_message.
  case_bool_decide; [done|].
  rewrite (bind_ret_eq _ _ _ _ _ (accepted_eq _ _ _ Hty)).
  by rewrite !bool_decide_eq_false_2 by done.
Qed.

Lemma other_event_ignored_witness :
  default [] (channel_event !! "channel_type") ≠ u "im"
  ∧ channel_event !! "type" = Some (u "message")
  ∧ u "message" ≠ u "app_mention"
  ∧ run (handle_message general_env channel_event (u "U1")) = ([], Ret tt).
Proof.
  assert (default [] (channel_event !! "channel_type") ≠ u "im") as H1
    by (by vm_compute).
  assert (channel_event !! "type" = Some (u "message")) as H2
    by (by vm_compute).
  assert (u "message" ≠ u "app_mention") as H3 by (by vm_compute).
  split; [exact H1|]. split; [exact H2|]. split; [exact H3|].
  exact (other_event_ignored general_env channel_event (u "U1") _ H1 H2 H3 []).
Defined.

(** X10: an accepted event without a text, such as an edited direct
    message, makes the handler raise [KeyError] for the key [text], outside
    the [try] block and before any call: nothing is sent to the user. *)
Theorem missing_text_raises
    (env : Env) (event : gmap string str) (bot_user_id type : str) :
  event !! "bot_id" = None →
  event !! "type" = Some type →
  default [] (event !! "channel_type") = u "im" ∨ type = u "app_mention" →
  event !! "text" = None →
  ∀ tr, handle_message env event bot_user_id tr = (tr, Raise (u "'text'")).
Proof.
  intros Hbot Hty Horigin Htext tr.
  rewrite handle_message_not_bot by done.
  rewrite (bind_ret_eq _ _ _ _ _ (accepted_eq _ _ _ Hty)).
  assert (bool_decide (default [] (event !! "channel_type") = u "im")
          || bool_decide (type = u "app_mention") = true) as ->.
  { destruct Horigin as [H|H]; rewrite (bool_decide_eq_true_2 _ H);
      [done|apply orb_true_r]. }
  assert (extract_query event bot_user_id tr = (tr, Raise (u "'text'")))
    as Hq.
  { unfold extract_query.
    rewrite (bind_ret_eq _ _ _ _ _ (getitem_Some _ _ _ _ Hty)).
    case_bool_decide;
      by rewrite (bind_raise_eq _ _ _ _ _ (getitem_None _ _ _ Htext)). }
  by rewrite (bind_raise_eq _ _ _ _ _ Hq).
Qed.

Lemma missing_text_raises_witness :
  edited_event !! "bot_id" = None
  ∧ edited_event !! "type" = Some (u "message")
  ∧ edited_event !! "text" = None
  ∧ run (handle_message general_env edited_event (u "U1"))
    = ([], Raise (u "'text'")).
Proof.
  assert (edited_event !! "bot_id" = None) as H1 by (by vm_compute).
  assert (edited_event !! "type" = Some (u "message")) as H2
    by (by vm_compute).
  assert (default [] (edited_event !! "channel_type") = u "im"
          ∨ u "message" = u "app_mention") as H3 by (left; by vm_compute).
  assert (edited_event !! "text" = None) as H4 by (by vm_compute).
  split; [exact H1|]. split; [exact H2|]. split; [exact H4|].
  exact (missing_text_raises general_env edited_event (u "U1") _
           H1 H2 H3 H4 []).
Defined.

(** X11: an event with neither [bot_id] nor [type] makes the handler
    raise [KeyError] for the key [type] before any call, whether it is a
    direct message or not. *)
Theorem missing_type_raises
    (env : Env) (event : gmap string str) (bot_user_id : str) :
  event !! "bot_id" = None →
  event !! "type" = None →
  ∀ tr, handle_message env event bot_user_id tr = (tr, Raise (u "'type'")).
Proof.
  intros Hbot Hty tr. rewrite handle_message_not_bot by done.
  unfold accepted. case_bool_decide.
  - rewrite (bind_ret_eq _ _ _ _ _ eq_refl).
    assert (extract_query event bot_user_id tr = (tr, Raise (u "'type'")))
      as Hq.
    { unfold extract_query.
      by rewrite (bind_raise_eq _ _ _ _ _ (getitem_None _ _ _ Hty)). }
    by rewrite (bind_raise_eq _ _ _ _ _ Hq).
  - assert ((getitem event "type" ≫= λ type,
               ret (bool_decide (type = u "app_mention"))) tr
            = (tr, Raise (u "'type'"))) as Hacc
      by (by rewrite (bind_raise_eq _ _ _ _ _ (getitem_None _ _ _ Hty))).
    by rewrite (bind_raise_eq _ _ _ _ _ Hacc).
Qed.

Lemma missing_type_raises_witness :
  delete "type" (dm_event (u "hi")) !! "bot_id" = None
  ∧ delete "type" (dm_event (u "hi")) !! "type" = None
  ∧ run (handle_message general_env (delete "type" (dm_event (u "hi")))
           (u "U1"))
    = ([], Raise (u "'type'")).
Proof.
  assert (delete "type" (dm_event (u "hi")) !! "bot_id" = None) as H1
    by (by vm_compute).
  assert (delete "type" (dm_event (u "hi")) !! "type" = None) as H2
    by (by vm_compute).
  split; [exact H1|]. split; [exact H2|].
  exact (missing_type_raises general_env _ (u "U1") H1 H2 []).
Defined.

(** ** White space and the mention token *)

Section StripFacts.
Implicit Types (s l r : str).

Lemma lstrip_blank s : blank s → Py.lstrip s = [].
Proof.
  intros Hs. rewrite <-(app_nil_r s). by rewrite lstrip_spaces.
Qed.

Lemma strip_blank s : blank s → Py.strip s = [].
Proof. intros Hs. unfold Py.strip. by rewrite lstrip_blank. Qed.

Lemma lstrip_keep s r :
  match s with [] => false | c :: _ => negb (Py.isspace c) end = true →
  Py.lstrip (s ++ r) = s ++ r.
Proof.
  destruct s as [|c s]; [done|]. intros Hc. simpl.
  by destruct (Py.isspace c).
Qed.

(** [strip] gives back a text with no white space at either end, whatever
    white space is put around it. *)
Lemma strip_trimmed l s r :
  trimmed s = true → blank l → blank r → Py.strip (l ++ s ++ r) = s.
Proof.
  intros Hs Hl Hr. destruct s as [|c s].
  { simpl. apply strip_blank. by apply Forall_app. }
  apply andb_true_iff in Hs as [Hhead Hlast].
  unfold Py.strip, Py.rstrip.
  rewrite lstrip_spaces by done.
  rewrite lstrip_keep by done.
  rewrite reverse_app, lstrip_spaces by by apply Forall_reverse.
  destruct (last (c :: s)) as [b|] eqn:Hb; [|by apply last_None in Hb].
  apply last_Some in Hb as [s' Hs']. rewrite Hs'.
  rewrite reverse_app, reverse_singleton. simpl app.
  apply negb_true_iff in Hlast.
  rewrite lstrip_letter by done.
  by rewrite reverse_cons, reverse_involutive.
Qed.

Lemma starts_with_absent (old s : str) c old' :
  old = c :: old' → c ∉ s → Py.starts_with old s = false.
Proof.
  intros -> Hc. destruct s as [|x s]; [done|]. simpl.
  destruct (N.eqb_spec c x) as [->|]; [|done].
  exfalso. apply Hc. by left.
Qed.

(** A text that does not hold the first character of [old] is left as
    it is. *)
Lemma remove_from_absent (old s : str) c old' :
  old = c :: old' → c ∉ s → Py.remove_from old 0 s = s.
Proof.
  intros Hold. induction s as [|x s IH]; intros Hc; [done|].
  cbn [Py.remove_from]. rewrite (starts_with_absent old (x :: s) c old') by done.
  rewrite IH; [done|]. intros Hin. apply Hc. by right.
Qed.

Lemma starts_with_app (old s : str) : Py.starts_with old (old ++ s) = true.
Proof.
  induction old as [|c old IH]; [done|]. simpl. by rewrite N.eqb_refl.
Qed.

Lemma remove_from_skip (old l s : str) :
  Py.remove_from old (length l) (l ++ s) = Py.remove_from old 0 s.
Proof. induction l as [|x l IH]; [done|]. simpl. apply IH. Qed.

(** An occurrence of [old] at the start of the text is removed. *)
Lemma remove_sub_prefix (old s : str) :
  Py.remove_sub old (old ++ s) = Py.remove_sub old s.
Proof.
  destruct old as [|c old]; [done|]. unfold Py.remove_sub.
  change ((c :: old) ++ s) with (c :: (old ++ s)).
  cbn [Py.remove_from].
  change (c :: old ++ s) with ((c :: old) ++ s).
  rewrite starts_with_app. cbn [length]. rewrite Nat.sub_1_r. simpl pred.
  apply remove_from_skip.
Qed.
End StripFacts.

(** X12: a message that holds white space only is dropped without a
    call, for a direct message and for a mention alike. *)
Theorem blank_message_no_call
    (env : Env) (event : gmap string str) (bot_user_id type text : str) :
  event !! "type" = Some type →
  event !! "text" = Some text →
  blank text →
  ∀ tr, handle_message env event bot_user_id tr = (tr, Ret tt).
Proof.
  intros Hty Htext Hblank tr.
  apply (handle_message_empty_query _ _ _ type text); [done|done|].
  unfold query_of. case_bool_decide; [|by apply strip_blank].
  unfold Py.remove_sub. change (u "<@") with [60%N; 64%N]. cbn [app].
  rewrite (remove_from_absent _ text 60%N (64%N :: bot_user_id ++ u ">"))
    by (done || (intros Hin; eapply Forall_forall in Hblank; [|exact Hin];
                 discriminate Hblank)).
  by apply strip_blank.
Qed.

Lemma blank_message_no_call_witness :
  mention_event (u "   ") !! "type" = Some (u "app_mention")
  ∧ mention_event (u "   ") !! "text" = Some (u "   ")
  ∧ blank (u "   ")
  ∧ run (handle_message general_env (mention_event (u "   ")) (u "U1"))
    = ([], Ret tt).
Proof.
  assert (mention_event (u "   ") !! "type" = Some (u "app_mention")) as H1
    by (by vm_compute).
  assert (mention_event (u "   ") !! "text" = Some (u "   ")) as H2
    by (by vm_compute).
  assert (blank (u "   ")) as H3 by (repeat constructor).
  split; [exact H1|]. split; [exact H2|]. split; [exact H3|].
  exact (blank_message_no_call general_env _ (u "U1") _ _ H1 H2 H3 []).
Defined.

(** X13: in a mention that begins with the token of the bot, followed
    by a question in which no other mention or link opens, the question
    asked is the rest of the text, trimmed. *)
Theorem mention_prefix_removed (bot_user_id rest : str) :
  60%N ∉ rest →
  query_of (u "app_mention") ((u "<@" ++ bot_user_id ++ u ">") ++ rest)
    bot_user_id
  = Py.strip rest.
Proof.
  intros Hrest. unfold query_of. rewrite bool_decide_eq_true_2 by done.
  rewrite remove_sub_prefix. f_equal.
  unfold Py.remove_sub. change (u "<@") with [60%N; 64%N]. cbn [app].
  by apply (remove_from_absent _ rest 60%N (64%N :: bot_user_id ++ u ">")).
Qed.

Lemma mention_prefix_removed_witness :
  (60%N ∉ u " ゼミの座長は誰が担当しますか")
  ∧ query_of (u "app_mention")
      ((u "<@" ++ u "U1" ++ u ">") ++ u " ゼミの座長は誰が担当しますか")
      (u "U1")
    = u "ゼミの座長は誰が担当しますか".
Proof.
  assert (60%N ∉ u " ゼミの座長は誰が担当しますか") as H
    by (apply (bool_decide_unpack _); by vm_compute).
  split; [exact H|].
  exact (mention_prefix_removed (u "U1") _ H).
Defined.

(** ** The choice of the document *)

Lemma keywords_unique : NoDup doc_keywords.
Proof. apply (bool_decide_unpack _). by vm_compute. Qed.

Lemma find_keyword (docs : list Doc) (doc : Doc) :
  NoDup (map keyword docs) → doc ∈ docs →
  List.find (λ d, bool_decide (keyword d = keyword doc)) docs = Some doc.
Proof.
  induction docs as [|d docs IH]; intros Hnd Hin; [by apply elem_of_nil in Hin|].
  simpl in *. apply NoDup_cons in Hnd as [Hd Hnd].
  apply elem_of_cons in Hin as [->|Hin].
  - by rewrite bool_decide_eq_true_2.
  - rewrite bool_decide_eq_false_2; [by apply IH|].
    intros Heq. apply Hd. rewrite Heq. by apply list_elem_of_fmap_2.
Qed.

Lemma select_doc_Some (topic : str) (doc : Doc) :
  select_doc topic = Some doc → doc ∈ DOCUMENTS_INFO ∧ keyword doc = topic.
Proof.
  unfold select_doc. intros Hfind. apply find_some in Hfind as [Hin Heq].
  split; [by apply list_elem_of_In|].
  by apply bool_decide_eq_true in Heq.
Qed.

(** X14: the choice is exact: a label selects an entry of the catalog
    if and only if it is, character for character, the keyword of that
    entry; any other label selects nothing. *)
Theorem select_doc_exact (topic : str) (doc : Doc) :
  select_doc topic = Some doc ↔ doc ∈ DOCUMENTS_INFO ∧ keyword doc = topic.
Proof.
  split; [apply select_doc_Some|].
  intros [Hin <-]. unfold select_doc.
  apply find_keyword; [apply keywords_unique|done].
Qed.

(** X15: every keyword of the catalog, answered by the model with any
    white space around it, selects its own entry. *)
Theorem keyword_selects_its_entry (l r : str) :
  blank l → blank r →
  Forall (λ doc, select_doc (normalize_topic (l ++ keyword doc ++ r))
                 = Some doc)
    DOCUMENTS_INFO.
Proof.
  intros Hl Hr. unfold normalize_topic.
  repeat (constructor;
          [rewrite strip_trimmed by (done || by vm_compute); by vm_compute|]).
  constructor.
Qed.

Lemma keyword_selects_its_entry_witness :
  blank [nl] ∧ blank (u " ")
  ∧ Forall (λ doc, select_doc (normalize_topic ([nl] ++ keyword doc ++ u " "))
                   = Some doc)
      DOCUMENTS_INFO.
Proof.
  assert (blank [nl]) as H1 by (repeat constructor).
  assert (blank (u " ")) as H2 by (repeat constructor).
  split; [exact H1|]. split; [exact H2|].
  exact (keyword_selects_its_entry [nl] (u " ") H1 H2).
Defined.

(** ** A classifier that gives no answer *)

Lemma apology_first_char :
  ∃ rest, u "申し訳ありません、AIとの通信中にエラーが発生しました．("
          = 30003%N :: rest.
Proof. eexists. vm_compute. reflexivity. Qed.

Lemma select_doc_apology (e : str) :
  select_doc (normalize_topic (gemini_error_text e)) = None.
Proof.
  destruct (select_doc _) as [doc|] eqn:Hsel; [|done]. exfalso.
  apply select_doc_Some in Hsel as [Hin Hkw].
  apply (f_equal head) in Hkw.
  assert (head (normalize_topic (gemini_error_text e)) = Some 30003%N) as Hhead.
  { unfold normalize_topic, gemini_error_text.
    destruct apology_first_char as [rest ->].
    change (u ")") with [41%N].
    replace ((30003%N :: rest) ++ e ++ [41%N])
      with ([] ++ (30003%N :: (rest ++ e) ++ [41%N]) ++ [])
      by (by rewrite app_nil_r, <-app_assoc).
    rewrite (strip_spaces [] [] 30003%N 41%N) by done.
    unfold Py.remove_char.
    by rewrite !filter_cons_True by done. }
  rewrite Hhead in Hkw. revert doc Hin Hkw.
  apply (proj1 (Forall_forall
                  (λ doc, head (keyword doc) = Some 30003%N → False)
                  DOCUMENTS_INFO)).
  unfold DOCUMENTS_INFO.
  repeat (constructor; [by vm_compute|]). constructor.
Qed.

Lemma select_doc_no_api_key :
  select_doc (normalize_topic no_api_key_text) = None.
Proof. by vm_compute. Qed.

(** X16: when the call that classifies the question raises, the apology
    that [get_gemini_response] returns is read as a label that matches no
    keyword: the question is answered from the fallback prompt, as one
    that no document covers, and no document is read. *)
Theorem failed_classification_falls_back
    (env : Env) (event : gmap string str)
    (bot_user_id user_query channel_id ts e : str) :
  accepted_query event bot_user_id user_query channel_id →
  slack_ok env →
  slack env [] (Say thinking_text (thread_anchor event)) = inl ts →
  generative_model env = true →
  generate_content_async env (classification_prompt user_query) = inr e →
  run (handle_message env event bot_user_id)
  = ([Say thinking_text (thread_anchor event);
      GenerateContent (classification_prompt user_query);
      ChatUpdate channel_id ts no_document_text;
      GenerateContent (fallback_query user_query);
      ChatUpdate channel_id ts (gemini_text env (fallback_query user_query))],
     Ret tt).
Proof.
  intros Hacc Hok Hsay Hmodel Hfail.
  assert (select_doc (normalize_topic
                        (gemini_text env (classification_prompt user_query)))
          = None) as Hsel.
  { unfold gemini_text. rewrite Hmodel, Hfail. apply select_doc_apology. }
  unfold run. rewrite (handle_message_accepted _ _ _ _ _ _ Hacc).
  rewrite (bind_ret_eq _ _ _ _ _ (slack_call_ok _ _ _ _ Hsay)).
  rewrite (try_except_ret _ _ _ _ _
             (answer_query_fallback _ _ _ _ _ Hok _ Hsel)).
  unfold gemini_calls. by rewrite Hmodel.
Qed.

Lemma failed_classification_falls_back_witness :
  accepted_query (dm_event (u "hi")) (u "U1") (u "hi") (u "D024BE91L")
  ∧ slack_ok broken_model_env
  ∧ generate_content_async broken_model_env (classification_prompt (u "hi"))
    = inr (u "429 quota exceeded")
  ∧ run (handle_message broken_model_env (dm_event (u "hi")) (u "U1"))
    = ([Say thinking_text (thread_anchor (dm_event (u "hi")));
        GenerateContent (classification_prompt (u "hi"));
        ChatUpdate (u "D024BE91L") (u "1700000000.000200") no_document_text;
        GenerateContent (fallback_query (u "hi"));
        ChatUpdate (u "D024BE91L") (u "1700000000.000200")
          (gemini_text broken_model_env (fallback_query (u "hi")))],
       Ret tt).
Proof.
  assert (accepted_query (dm_event (u "hi")) (u "U1") (u "hi")
            (u "D024BE91L")) as Hacc.
  { split; [by vm_compute|]. exists (u "message"), (u "hi").
    split; [by vm_compute|]. split; [by vm_compute|].
    split; [left; by vm_compute|]. split; [by vm_compute|].
    split; [by vm_compute|by vm_compute]. }
  assert (slack_ok broken_model_env) as Hok by (intros tr c; by eexists).
  split; [exact Hacc|]. split; [exact Hok|]. split; [reflexivity|].
  exact (failed_classification_falls_back broken_model_env
           (dm_event (u "hi")) (u "U1") (u "hi") (u "D024BE91L")
           (u "1700000000.000200") (u "429 quota exceeded")
           Hacc Hok eq_refl eq_refl eq_refl).
Defined.

(** X17: without a model client no call to the model is made: the
    notice that the key is missing is taken for the label, matches no
    keyword, and is then delivered as the answer of the fallback
    branch. *)
Theorem missing_model_delivers_notice
    (env : Env) (event : gmap string str)
    (bot_user_id user_query channel_id ts : str) :
  accepted_query event bot_user_id user_query channel_id →
  slack_ok env →
  slack env [] (Say thinking_text (thread_anchor event)) = inl ts →
  generative_model env = false →
  run (handle_message env event bot_user_id)
  = ([Say thinking_text (thread_anchor event);
      ChatUpdate channel_id ts no_document_text;
      ChatUpdate channel_id ts
        (u "Gemini APIキーが設定されていないため、応答できません．")],
     Ret tt).
Proof.
  intros Hacc Hok Hsay Hmodel.
  assert (select_doc (normalize_topic
                        (gemini_text env (classification_prompt user_query)))
          = None) as Hsel.
  { unfold gemini_text. rewrite Hmodel. apply select_doc_no_api_key. }
  unfold run. rewrite (handle_message_accepted _ _ _ _ _ _ Hacc).
  rewrite (bind_ret_eq _ _ _ _ _ (slack_call_ok _ _ _ _ Hsay)).
  rewrite (try_except_ret _ _ _ _ _
             (answer_query_fallback _ _ _ _ _ Hok _ Hsel)).
  unfold gemini_calls, gemini_text. by rewrite Hmodel.
Qed.

Lemma missing_model_delivers_notice_witness :
  accepted_query (dm_event (u "hi")) (u "U1") (u "hi") (u "D024BE91L")
  ∧ slack_ok quiet_env
  ∧ generative_model quiet_env = false
  ∧ run (handle_message quiet_env (dm_event (u "hi")) (u "U1"))
    = ([Say thinking_text (thread_anchor (dm_event (u "hi")));
        ChatUpdate (u "D024BE91L") (u "1700000000.000200") no_document_text;
        ChatUpdate (u "D024BE91L") (u "1700000000.000200")
          (u "Gemini APIキーが設定されていないため、応答できません．")],
       Ret tt).
Proof.
  assert (accepted_query (dm_event (u "hi")) (u "U1") (u "hi")
            (u "D024BE91L")) as Hacc.
  { split; [by vm_compute|]. exists (u "message"), (u "hi").
    split; [by vm_compute|]. split; [by vm_compute|].
    split; [left; by vm_compute|]. split; [by vm_compute|].
    split; [by vm_compute|by vm_compute]. }
  assert (slack_ok quiet_env) as Hok by (intros tr c; by eexists).
  split; [exact Hacc|]. split; [exact Hok|]. split; [reflexivity|].
  exact (missing_model_delivers_notice quiet_env (dm_event (u "hi")) (u "U1")
           (u "hi") (u "D024BE91L") (u "1700000000.000200")
           Hacc Hok eq_refl eq_refl).
Defined.



(** ** The end of a request *)

Section Converges.
Context {A B : Type}.


Lemma converges_raise e : converges (@raise A e).
Proof. by intros tr. Qed.



End Converges.





(** ** A post that is refused *)

Section RefusedPost.
Variable env : Env.
Variable e : str.
Hypothesis Hpost :
  ∀ tr channel thread_ts text,
    slack env tr (ChatPostMessage channel thread_ts text) = inr e.

Lemma send_long_message_refused channel thread_ts text tr :
  ∃ message,
    send_long_message env channel thread_ts text tr
    = (tr ++ [ChatPostMessage channel thread_ts message], Raise e).
Proof using Hpost.
  unfold send_long_message. destruct (Z.leb_spec (Py.len text) limit).
  - exists text. unfold mbind, M_bind, bind, slack_call, perform.
    by rewrite Hpost.
  - destruct (chunk_loop_terminates text) as (parts & Hparts & Hcat).
    rewrite Hparts. destruct parts as [|part rest].
    { simpl in Hcat. subst text. unfold limit, Py.len in *. simpl in *. lia. }
    eexists. simpl. unfold mbind, M_bind, bind, slack_call, perform.
    by rewrite Hpost.
Qed.
End RefusedPost.

(** X20: in the branch of a matched document the placeholder is deleted
    before the answer is posted; when the post is then refused with [e],
    the [except] clause writes its error message to the placeholder that
    is already deleted, and that update is the last call of the request. *)
Theorem refused_post_updates_deleted_placeholder
    (env : Env) (event : gmap string str)
    (bot_user_id user_query channel_id ts context_text e : str) (doc : Doc) :
  accepted_query event bot_user_id user_query channel_id →
  (∀ tr channel thread_ts text,
     slack env tr (ChatPostMessage channel thread_ts text) = inr e) →
  (∀ tr text, slack env tr (Say text (thread_anchor event)) = inl ts) →
  (∀ tr text, ∃ r, slack env tr (ChatUpdate channel_id ts text) = inl r) →
  (∀ tr, ∃ r, slack env tr (ChatDelete channel_id ts) = inl r) →
  select_doc (normalize_topic
                (gemini_text env (classification_prompt user_query)))
  = Some doc →
  read_text env (filename doc) = inl context_text →
  ∃ message,
    run (handle_message env event bot_user_id)
    = ([Say thinking_text (thread_anchor event)]
         ++ gemini_calls env (classification_prompt user_query)
         ++ [ChatUpdate channel_id ts (reading_text (filename doc));
             ReadText (filename doc)]
         ++ gemini_calls env
              (final_query (filename doc) context_text user_query)
         ++ [ChatDelete channel_id ts;
             ChatPostMessage channel_id (thread_anchor event) message;
             ChatUpdate channel_id ts (error_text e)],
       Ret tt).
Proof.
  intros Hacc Hpost Hsay Hupd Hdel Hsel Hread.
  set (tr1 := [Say thinking_text (thread_anchor event)]
                ++ gemini_calls env (classification_prompt user_query)).
  set (tr2 := (tr1 ++ [ChatUpdate channel_id ts
                         (reading_text (filename doc))])
                ++ [ReadText (filename doc)]).
  set (tr3 := tr2 ++ gemini_calls env
                       (final_query (filename doc) context_text user_query)).
  destruct (Hupd tr1 (reading_text (filename doc))) as [r1 H1].
  destruct (Hdel tr3) as [r2 H2].
  destruct (send_long_message_refused env e Hpost channel_id
              (thread_anchor event)
              (gemini_text env
                 (final_query (filename doc) context_text user_query))
              (tr3 ++ [ChatDelete channel_id ts]))
    as [message Hsend].
  destruct (Hupd ((tr3 ++ [ChatDelete channel_id ts])
                    ++ [ChatPostMessage channel_id (thread_anchor event)
                          message]) (error_text e)) as [r3 H3].
  exists message.
  assert (answer_query env channel_id (thread_anchor event) ts user_query
            [Say thinking_text (thread_anchor event)]
          = ((tr3 ++ [ChatDelete channel_id ts])
               ++ [ChatPostMessage channel_id (thread_anchor event) message],
             Raise e)) as Hbody.
  { unfold answer_query.
    rewrite (bind_ret_eq _ _ _ _ _ (get_gemini_response_eq _ _ _)).
    cbv zeta. rewrite Hsel. fold tr1.
    rewrite (bind_ret_eq _ _ _ _ _ (slack_call_ok _ _ _ _ H1)).
    rewrite (bind_ret_eq _ _ _ _ _ (perform_read_ok _ _ _ _ Hread)).
    fold tr2.
    rewrite (bind_ret_eq _ _ _ _ _ (get_gemini_response_eq _ _ _)).
    fold tr3.
    rewrite (bind_ret_eq _ _ _ _ _ (slack_call_ok _ _ _ _ H2)).
    exact Hsend. }
  unfold run. rewrite (handle_message_accepted _ _ _ _ _ _ Hacc).
  rewrite (bind_ret_eq _ _ _ _ _ (slack_call_ok _ _ _ _ (Hsay [] _))).
  rewrite app_nil_l.
  rewrite (try_except_raise _ _ _ _ _ Hbody).
  rewrite (bind_ret_eq _ _ _ _ _ (slack_call_ok _ _ _ _ H3)).
  unfold ret, tr3, tr2, tr1. by rewrite <-!app_assoc.
Qed.

Lemma refused_post_updates_deleted_placeholder_witness :
  accepted_query (dm_event (u "hi")) (u "U1") (u "hi") (u "D024BE91L")
  ∧ (∀ tr channel thread_ts text,
       slack refused_post_env tr (ChatPostMessage channel thread_ts text)
       = inr (u "msg_too_long"))
  ∧ run (handle_message refused_post_env (dm_event (u "hi")) (u "U1"))
    = ([Say thinking_text (Some (u "1700000000.000100"));
        GenerateContent (classification_prompt (u "hi"));
        ChatUpdate (u "D024BE91L") (u "1700000000.000200")
          (reading_text (u "zemi_unei.txt"));
        ReadText (u "zemi_unei.txt");
        GenerateContent (final_query (u "zemi_unei.txt") (u "doc") (u "hi"));
        ChatDelete (u "D024BE91L") (u "1700000000.000200");
        ChatPostMessage (u "D024BE91L") (Some (u "1700000000.000100"))
          (u "ok");
        ChatUpdate (u "D024BE91L") (u "1700000000.000200")
          (error_text (u "msg_too_long"))],
       Ret tt).
Proof.
  assert (accepted_query (dm_event (u "hi")) (u "U1") (u "hi")
            (u "D024BE91L")) as Hacc.
  { split; [by vm_compute|]. exists (u "message"), (u "hi").
    split; [by vm_compute|]. split; [by vm_compute|].
    split; [left; by vm_compute|]. split; [by vm_compute|].
    split; [by vm_compute|by vm_compute]. }
  split; [exact Hacc|]. split; [done|].
  destruct (refused_post_updates_deleted_placeholder refused_post_env
              (dm_event (u "hi")) (u "U1") (u "hi") (u "D024BE91L")
              (u "1700000000.000200") (u "doc") (u "msg_too_long")
              {| keyword := u "ゼミ"; filename := u "zemi_unei.txt";
                 description := u "研究室のゼミのルール、発表者や座長の役割について説明している資料．" |}
              Hacc ltac:(done) ltac:(done)
              ltac:(intros; by eexists) ltac:(intros; by eexists)
              ltac:(by vm_compute) eq_refl) as [message Hrun].
  rewrite Hrun. by vm_compute.
Defined.

(** X3: no part is longer than [limit + 1] characters, so a text of
    [n] characters is cut into at least [n / (limit + 1)] parts. *)
Theorem parts_length_bounds (text : str) :
  ∃ parts,
    split_parts text = Some parts
    ∧ Forall (λ part, Py.len part ≤ limit + 1) parts
    ∧ Py.len text ≤ (limit + 1) * Z.of_nat (length parts).
Proof.
  destruct (chunk_loop_terminates text) as (parts & Hp & Hcat).
  exists parts. split; [done|].
  assert (Forall (λ part, Py.len part ≤ limit + 1) parts) as Hbound
    by (by apply (chunk_loop_part_bound (length text) text [] 0)).
  split; [done|]. rewrite <-Hcat. clear Hp Hcat.
  induction Hbound as [|p ps Hp _ IH]; [done|].
  unfold Py.len in *. simpl concat. rewrite length_app, length_cons.
  unfold limit in *. lia.
Qed.

(** X21: an accepted question in an event without [channel] makes the
    handler raise [KeyError] for that key before the placeholder is
    posted. *)
Theorem missing_channel_raises
    (env : Env) (event : gmap string str) (bot_user_id type text : str) :
  event !! "bot_id" = None →
  event !! "type" = Some type →
  default [] (event !! "channel_type") = u "im" ∨ type = u "app_mention" →
  event !! "text" = Some text →
  query_of type text bot_user_id ≠ [] →
  event !! "channel" = None →
  ∀ tr, handle_message env event bot_user_id tr = (tr, Raise (u "'channel'")).
Proof.
  intros Hbot Hty Horigin Htext Hq Hch tr.
  rewrite handle_message_not_bot by done.
  rewrite (bind_ret_eq _ _ _ _ _ (accepted_eq _ _ _ Hty)).
  assert (bool_decide (default [] (event !! "channel_type") = u "im")
          || bool_decide (type = u "app_mention") = true) as ->.
  { destruct Horigin as [H|H]; rewrite (bool_decide_eq_true_2 _ H);
      [done|apply orb_true_r]. }
  rewrite (bind_ret_eq _ _ _ _ _ (extract_query_eq _ _ _ _ _ Hty Htext)).
  rewrite bool_decide_eq_false_2 by done.
  by rewrite (bind_raise_eq _ _ _ _ _ (getitem_None _ _ _ Hch)).
Qed.

Lemma missing_channel_raises_witness :
  delete "channel" (dm_event (u "hi")) !! "bot_id" = None
  ∧ delete "channel" (dm_event (u "hi")) !! "text" = Some (u "hi")
  ∧ query_of (u "message") (u "hi") (u "U1") ≠ []
  ∧ delete "channel" (dm_event (u "hi")) !! "channel" = None
  ∧ run (handle_message general_env (delete "channel" (dm_event (u "hi")))
           (u "U1"))
    = ([], Raise (u "'channel'")).
Proof.
  assert (delete "channel" (dm_event (u "hi")) !! "bot_id" = None) as H1
    by (by vm_compute).
  assert (delete "channel" (dm_event (u "hi")) !! "type"
          = Some (u "message")) as H2 by (by vm_compute).
  assert (default [] (delete "channel" (dm_event (u "hi")) !! "channel_type")
          = u "im" ∨ u "message" = u "app_mention") as H3
    by (left; by vm_compute).
  assert (delete "channel" (dm_event (u "hi")) !! "text" = Some (u "hi"))
    as H4 by (by vm_compute).
  assert (query_of (u "message") (u "hi") (u "U1") ≠ []) as H5
    by (by vm_compute).
  assert (delete "channel" (dm_event (u "hi")) !! "channel" = None) as H6
    by (by vm_compute).
  split; [exact H1|]. split; [exact H4|]. split; [exact H5|].
  split; [exact H6|].
  exact (missing_channel_raises general_env _ (u "U1") _ _
           H1 H2 H3 H4 H5 H6 []).
Defined.
